(** * middlelogger: an HTTP logging middleware

    A shallow embedding of [stdlib_logger.go] (the [StdLibLogger] observer and
    the middleware proper: [loggedRequest], [logHandler.slowLog],
    [logHandler.ServeHTTP], [LoggerMiddleware]) together with the properties
    of the response interceptor, of the slow-request poller and of the
    request-completion dispatcher.

    Conventions of the embedding.
    - Go's [int] and [int64] are 64-bit two's complement integers, carried
      by [Z]; the only arithmetic the middleware performs on them
      ([bytesWritten += int64(written)] and [i++]) is written with its
      wrap-around, [Int64.wrap].
    - [lr.mtx] is not represented: each critical section is one atomic
      function on the record.
    - The calls made on the observer ([LogRequest], [LogPanic],
      [LogSlowRequest]) are recorded as a trace of [Emission]s; the observer's
      callbacks themselves are external code and are taken to return.
    - The wrapped handler is external code too: it is a tree of the calls it
      makes on the [http.ResponseWriter] it is given, ending in a normal
      return or in a panic.  A panic carries a non-nil value (since Go 1.21
      [panic(nil)] raises a [*runtime.PanicNilError]), so [recover()] yields
      nil exactly when the goroutine is not panicking.
    - The poller goroutine is a function of what its successive [select]
      statements observe: which case was taken and, when the timer fired,
      the shared interceptor as [currentData] found it.  Every execution
      of the goroutine determines such a sequence of observations, and what
      is proved of the poller is proved for all sequences. *)

From Stdlib Require Import Strings.String Strings.Byte.
From Stdlib Require Import ZArith List Bool Lia.
Import ListNotations.
Local Open Scope Z_scope.

(** ** 64-bit signed integers *)

Module Int64.

Definition min_signed : Z := - 2 ^ 63.
Definition max_signed : Z := 2 ^ 63 - 1.
Definition modulus : Z := 2 ^ 64.

(** The value of a mathematical integer once stored in an [int64]. *)
Definition wrap (z : Z) : Z := (z + 2 ^ 63) mod modulus - 2 ^ 63.

Definition in_range (z : Z) : Prop := min_signed <= z <= max_signed.

End Int64.

(** ** External types *)

(** [error]: a non-nil error value, identified by its message. *)
Definition error : Type := string.

(** [http.Header]. *)
Definition HttpHeader : Type := list (string * list string).

(** [time.Time] and [time.Duration], in nanoseconds. *)
Definition Time : Type := Z.
Definition Duration : Type := Z.

(** [http.ResponseWriter]: the interface of the outgoing response stream.
    [Wr] is the state of the value behind the interface; [rw_Write] returns
    what the Go method returns, the count and the (possibly nil) error. *)
Class ResponseWriter (Wr : Type) : Type := {
  rw_Header : Wr -> HttpHeader;
  rw_Write : list byte -> Wr -> (Z * option error) * Wr;
  rw_WriteHeader : Z -> Wr -> Wr
}.

(** The contract of [io.Writer] on the count returned by [Write]:
    [0 <= n <= len(p)]. *)
Definition io_Writer_contract {Wr : Type} `{ResponseWriter Wr} : Prop :=
  forall (data : list byte) (s : Wr),
    0 <= fst (fst (rw_Write data s)) <= Z.of_nat (length data).

(** A response stream that records what it receives and accepts every
    slice whole, in the manner of [httptest.ResponseRecorder], the stream of
    [logger_test.go]. *)
Record ResponseRecorder : Type := {
  Code : Z;
  Body : list byte;
  recordedHeader : bool
}.

Definition NewRecorder : ResponseRecorder :=
  {| Code := 200; Body := []; recordedHeader := false |}.

#[export] Instance ResponseRecorder_ResponseWriter
  : ResponseWriter ResponseRecorder := {
  rw_Header := fun _ => [];
  rw_Write := fun data rec =>
    ((Z.of_nat (length data), None),
     {| Code := Code rec; Body := Body rec ++ data; recordedHeader := true |});
  rw_WriteHeader := fun code rec =>
    if recordedHeader rec then rec
    else {| Code := code; Body := Body rec; recordedHeader := true |}
}.

(** A response stream whose status allows no body, as [net/http] serves a
    204 or a 304: [Write] accepts nothing and returns
    [(0, http.ErrBodyNotAllowed)].  Its state is the status it was given. *)
Record BodilessWriter : Type := { sentStatus : option Z }.

Definition ErrBodyNotAllowed : error :=
  "http: request method or response status code does not allow body"%string.

#[export] Instance BodilessWriter_ResponseWriter
  : ResponseWriter BodilessWriter := {
  rw_Header := fun _ => [];
  rw_Write := fun _ s => ((0, Some ErrBodyNotAllowed), s);
  rw_WriteHeader := fun code s =>
    match sentStatus s with
    | Some _ => s
    | None => {| sentStatus := Some code |}
    end
}.

(** A response stream that breaks the contract of [io.Writer]: its
    [Write] fails and returns the count -1. *)
Record BrokenWriter : Type := { brokenCalls : nat }.

#[export] Instance BrokenWriter_ResponseWriter
  : ResponseWriter BrokenWriter := {
  rw_Header := fun _ => [];
  rw_Write := fun _ s =>
    ((-1, Some "write failed"%string), {| brokenCalls := S (brokenCalls s) |});
  rw_WriteHeader := fun _ s => {| brokenCalls := S (brokenCalls s) |}
}.

(** The fields of [*http.Request] that [StdLibLogger] prints. *)
Record HttpRequest : Type := { Method : string; RequestURI : string }.

(** [httptest.NewRequest("", "/", nil)]. *)
Definition testRequest : HttpRequest :=
  {| Method := "GET"; RequestURI := "/" |}.

Section Middleware.

(** [*http.Request], and the non-nil values of [interface{}] that a panic
    may carry. *)
Variable Request : Type.
Variable any : Type.

Context {Wr : Type} {RW : ResponseWriter Wr}.

(** ** Data model *)

Record LogData : Type := {
  R : Request;
  W : Wr;
  Status : Z;
  Start : Time;
  TotalTime : Duration;
  BytesWritten : Z
}.

(** The optional interfaces of an observer.  [PanicLogger] has the single
    method [LogPanic]; of [SlowRequestLogger] the two queries are kept, its
    [LogSlowRequest] is an emission. *)
Inductive PanicLogger : Type := LogPanicImpl.

Record SlowRequestLogger : Type := {
  Cutoff : Request -> Duration;
  MultipleLogs : Request -> bool
}.

(** A value of interface type [RequestLogger]: besides [LogRequest], which
    every such value has, the optional interfaces its dynamic type
    implements. *)
Record RequestLogger : Type := {
  implPanicLogger : option PanicLogger;
  implSlowRequestLogger : option SlowRequestLogger
}.

(** The calls received by the observer. *)
Inductive Emission : Type :=
| LogRequest (ld : LogData)
| LogPanic (ld : LogData) (err : any)
| LogSlowRequest (ld : LogData) (i : Z).

(** ** The response interceptor *)

Record loggedRequest : Type := {
  w : Wr;
  status : Z;
  wroteHeader : bool;
  bytesWritten : Z
}.

(** [&loggedRequest{w: w}]. *)
Definition newLoggedRequest (w0 : Wr) : loggedRequest :=
  {| w := w0; status := 0; wroteHeader := false; bytesWritten := 0 |}.

Definition WriteHeader (code : Z) (lr : loggedRequest) : loggedRequest :=
  if wroteHeader lr then lr
  else
    {| w := rw_WriteHeader code (w lr);
       status := code;
       wroteHeader := true;
       bytesWritten := bytesWritten lr |}.

Definition Header (lr : loggedRequest) : HttpHeader := rw_Header (w lr).

Definition Write (data : list byte) (lr : loggedRequest)
  : (Z * option error) * loggedRequest :=
  let '(written, err, w') := rw_Write data (w lr) in
  ((written, err),
   {| w := w';
      status := status lr;
      wroteHeader := wroteHeader lr;
      bytesWritten := Int64.wrap (bytesWritten lr + written) |}).

Definition currentData (lr : loggedRequest) : Z * Z :=
  (status lr, bytesWritten lr).

(** The methods of the interceptor, and the state each one leaves. *)
Inductive Operation : Type :=
| OpWriteHeader (code : Z)
| OpHeader
| OpWrite (data : list byte)
| OpCurrentData.

Definition invoke (m : Operation) (lr : loggedRequest) : loggedRequest :=
  match m with
  | OpWriteHeader code => WriteHeader code lr
  | OpHeader => lr
  | OpWrite data => snd (Write data lr)
  | OpCurrentData => lr
  end.

(** ** The wrapped handler *)

(** An [http.Handler] applied to a request: the calls it makes on its
    [http.ResponseWriter], each continuation receiving what the call
    returned. *)
Inductive Handler : Type :=
| Return
| Panic (v : any)
| CallWriteHeader (code : Z) (k : Handler)
| CallHeader (k : HttpHeader -> Handler)
| CallWrite (data : list byte) (k : Z -> option error -> Handler).

(** One call of the handler on the interceptor, with the result of a
    [Write]. *)
Inductive Call : Type :=
| CalledWriteHeader (code : Z)
| CalledHeader
| CalledWrite (data : list byte) (written : Z) (err : option error).

(** [lh.next.ServeHTTP(lr, r)]: the calls made, the interceptor when the
    handler stops, and the panic it stops with, if any. *)
Fixpoint serve (h : Handler) (lr : loggedRequest)
  : list Call * loggedRequest * option any :=
  match h with
  | Return => ([], lr, None)
  | Panic v => ([], lr, Some v)
  | CallWriteHeader code k =>
      let '(cs, lr', p) := serve k (WriteHeader code lr) in
      (CalledWriteHeader code :: cs, lr', p)
  | CallHeader k =>
      let '(cs, lr', p) := serve (k (Header lr)) lr in
      (CalledHeader :: cs, lr', p)
  | CallWrite data k =>
      let '(written, err, lr1) := Write data lr in
      let '(cs, lr', p) := serve (k written err) lr1 in
      (CalledWrite data written err :: cs, lr', p)
  end.

(** ** The slow-request poller *)

(** What one [select] of the poller observes: [doneChan] closed, or the
    timer of length [cutoff] fired; in the second case the interceptor as it
    is when [currentData] reads it and the value of [time.Since(start)]. *)
Inductive Selected : Type :=
| RecvDone
| TimerFired (lr : loggedRequest) (since : Duration).

(** The loop of [slowLog], from index [i]: the emissions made while the
    [select]s observe [sel], and whether the goroutine has returned. *)
Fixpoint slowLog_from (multiple : bool) (r : Request) (start : Time)
  (i : Z) (sel : list Selected) : list Emission * bool :=
  if multiple || (i =? 0) then
    match sel with
    | [] => ([], false)
    | RecvDone :: _ => ([], true)
    | TimerFired lr since :: sel' =>
        let '(status, bytesWritten) := currentData lr in
        let ld := {| R := r; W := w lr; Start := start; TotalTime := since;
                     Status := status; BytesWritten := bytesWritten |} in
        let '(es, returned) :=
          slowLog_from multiple r start (Int64.wrap (i + 1)) sel' in
        (LogSlowRequest ld i :: es, returned)
    end
  else ([], true).

Definition slowLog (cutoff : Duration) (multiple : bool) (r : Request)
  (start : Time) (sel : list Selected) : list Emission * bool :=
  slowLog_from multiple r start 0 sel.

(** ** The dispatcher *)

Record logHandler : Type := {
  logger : RequestLogger;
  panicLogger : option PanicLogger;
  slowLogger : option SlowRequestLogger;
  next : Request -> Handler
}.

(** The goroutine started by [go lh.slowLog(cutoff, multiple, ...)]. *)
Record Goroutine : Type := {
  go_cutoff : Duration;
  go_multiple : bool;
  go_r : Request;
  go_start : Time
}.

Definition run (g : Goroutine) (sel : list Selected) : list Emission * bool :=
  slowLog (go_cutoff g) (go_multiple g) (go_r g) (go_start g) sel.

(** [recover()]: the value of the panic in flight, which it stops. *)
Definition recover (panicking : option any) : option any * option any :=
  (panicking, None).

(** The deferred function of [ServeHTTP], entered with the goroutine
    panicking or not: whether [doneChan] was closed, the emission made and
    the panic still in flight when it returns.  [since] is the value of
    [time.Since(start)]. *)
Definition completion (lh : logHandler) (doneChan : option Goroutine)
  (r : Request) (start : Time) (since : Duration) (lr : loggedRequest)
  (panicking : option any) : bool * list Emission * option any :=
  let closed := match doneChan with Some _ => true | None => false end in
  let '(status, bytesWritten) := currentData lr in
  let ld := {| R := r; W := w lr; Start := start; TotalTime := since;
               Status := status; BytesWritten := bytesWritten |} in
  match panicLogger lh with
  | Some _ =>
      match recover panicking with
      | (Some err, panicking') => (closed, [LogPanic ld err], panicking')
      | (None, panicking') => (closed, [LogRequest ld], panicking')
      end
  | None => (closed, [LogRequest ld], panicking)
  end.

(** One run of [ServeHTTP]. *)
Record Served : Type := {
  spawned : option Goroutine;
  calls : list Call;
  response : loggedRequest;
  doneClosed : bool;
  emitted : list Emission;
  propagated : option any
}.

(** [now] is the value of [time.Now()] on entry, [since] the value of
    [time.Since(start)] in the deferred function. *)
Definition ServeHTTP (lh : logHandler) (w0 : Wr) (r : Request)
  (now : Time) (since : Duration) : Served :=
  let lr := newLoggedRequest w0 in
  let start := now in
  let doneChan :=
    match slowLogger lh with
    | Some sl =>
        let cutoff := Cutoff sl r in
        let multiple := MultipleLogs sl r in
        if 0 <? cutoff
        then Some {| go_cutoff := cutoff; go_multiple := multiple;
                     go_r := r; go_start := start |}
        else None
    | None => None
    end in
  let '(cs, lr', panicking) := serve (next lh r) lr in
  let '(closed, es, panicking') :=
    completion lh doneChan r start since lr' panicking in
  {| spawned := doneChan; calls := cs; response := lr';
     doneClosed := closed; emitted := es; propagated := panicking' |}.

Definition LoggerMiddleware (next : Request -> Handler)
  (logger : RequestLogger) : logHandler :=
  {| logger := logger;
     panicLogger := implPanicLogger logger;
     slowLogger := implSlowRequestLogger logger;
     next := next |}.

(** The slow emissions of a request whose poller, if one was started,
    observes [sel]. *)
Definition slowEmissions (s : Served) (sel : list Selected) : list Emission :=
  match spawned s with
  | Some g => fst (run g sel)
  | None => []
  end.

(** ** Reading a trace *)

Definition isLogRequest (e : Emission) : bool :=
  match e with LogRequest _ => true | _ => false end.

Definition isLogPanic (e : Emission) : bool :=
  match e with LogPanic _ _ => true | _ => false end.

Definition isLogSlowRequest (e : Emission) : bool :=
  match e with LogSlowRequest _ _ => true | _ => false end.

Definition count (p : Emission -> bool) (es : list Emission) : nat :=
  length (filter p es).

(** The counts returned by the underlying stream to the [Write] calls of a
    handler, and the lengths of the slices written. *)
Fixpoint writtenSum (cs : list Call) : Z :=
  match cs with
  | [] => 0
  | CalledWrite _ written _ :: cs' => written + writtenSum cs'
  | _ :: cs' => writtenSum cs'
  end.

Fixpoint lenSum (cs : list Call) : Z :=
  match cs with
  | [] => 0
  | CalledWrite data _ _ :: cs' => Z.of_nat (length data) + lenSum cs'
  | _ :: cs' => lenSum cs'
  end.

(** The argument of the first [WriteHeader] among the calls. *)
Fixpoint firstStatus (cs : list Call) : option Z :=
  match cs with
  | [] => None
  | CalledWriteHeader code :: _ => Some code
  | _ :: cs' => firstStatus cs'
  end.

(** The [LogData] an emission carries. *)
Definition entry (e : Emission) : LogData :=
  match e with
  | LogRequest ld => ld
  | LogPanic ld _ => ld
  | LogSlowRequest ld _ => ld
  end.

(** The [LogData] built from the interceptor as [currentData] reads it. *)
Definition logDataOf (r : Request) (start : Time) (since : Duration)
  (lr : loggedRequest) : LogData :=
  {| R := r; W := w lr; Start := start; TotalTime := since;
     Status := fst (currentData lr); BytesWritten := snd (currentData lr) |}.

(** ** Observers and handlers of the repository *)

(** [time.Second]. *)
Definition Second : Duration := 1000000000.

(** [StdLibLogger] implements the three interfaces, with a fixed cutoff of
    one second and repeated slow logs. *)
Definition StdLibLogger : RequestLogger :=
  {| implPanicLogger := Some LogPanicImpl;
     implSlowRequestLogger :=
       Some {| Cutoff := fun _ => Second; MultipleLogs := fun _ => true |} |}.

(** [mockLogger] of [logger_test.go] implements the three interfaces too,
    its cutoff and its repetition are fields. *)
Definition mockLogger (cutoff : Duration) (multiple : bool) : RequestLogger :=
  {| implPanicLogger := Some LogPanicImpl;
     implSlowRequestLogger :=
       Some {| Cutoff := fun _ => cutoff; MultipleLogs := fun _ => multiple |} |}.

(** [nullLogger] of [logger_test.go] has [LogRequest] only. *)
Definition nullLogger : RequestLogger :=
  {| implPanicLogger := None; implSlowRequestLogger := None |}.

(** [var data [n]byte]. *)
Definition zeros (n : nat) : list byte := repeat x00 n.

Definition emptyHandler : Request -> Handler :=
  fun _ => CallWriteHeader 200 Return.

Definition mockHandler (status : Z) : Request -> Handler :=
  fun _ => CallWriteHeader status (CallWrite (zeros 16) (fun _ _ => Return)).

Definition panicHandler (status : Z) (boo : any) : Request -> Handler :=
  fun _ => CallWriteHeader status (CallWrite (zeros 16) (fun _ _ => Panic boo)).

(** [slowHandler]; its sleep is time passing between the two writes. *)
Definition slowHandler (status : Z) : Request -> Handler :=
  fun _ =>
    CallWriteHeader status
      (CallWrite (zeros 8) (fun _ _ => CallWrite (zeros 8) (fun _ _ => Return))).

(** ** The handler on the bare stream, the calls forwarded, callers *)

(** [loggedRequest] implements [http.ResponseWriter] with its three
    methods, so that an interceptor can itself be the stream of another. *)
Definition loggedRequest_ResponseWriter : ResponseWriter loggedRequest :=
  {| rw_Header := Header;
     rw_Write := Write;
     rw_WriteHeader := WriteHeader |}.

(** [next.ServeHTTP(w, r)]: the handler given the stream itself, without
    the middleware.  As everywhere in this file a handler is the calls it
    makes through the three methods of [http.ResponseWriter]; what a handler
    could reach on the bare stream by asserting another interface
    ([http.Flusher], [http.Hijacker], [io.ReaderFrom]), which
    [*loggedRequest] does not offer, is not part of it. *)
Fixpoint direct (h : Handler) (s : Wr) : list Call * Wr * option any :=
  match h with
  | Return => ([], s, None)
  | Panic v => ([], s, Some v)
  | CallWriteHeader code k =>
      let '(cs, s', p) := direct k (rw_WriteHeader code s) in
      (CalledWriteHeader code :: cs, s', p)
  | CallHeader k =>
      let '(cs, s', p) := direct (k (rw_Header s)) s in
      (CalledHeader :: cs, s', p)
  | CallWrite data k =>
      let '(written, err, s1) := rw_Write data s in
      let '(cs, s', p) := direct (k written err) s1 in
      (CalledWrite data written err :: cs, s', p)
  end.

(** The number of [WriteHeader] calls among the calls of a handler. *)
Fixpoint headerCalls (cs : list Call) : nat :=
  match cs with
  | [] => 0%nat
  | CalledWriteHeader _ :: cs' => S (headerCalls cs')
  | _ :: cs' => headerCalls cs'
  end.

(** The calls without the [WriteHeader]s that follow a first one; [wrote]
    tells whether one was made before. *)
Fixpoint dropLaterHeaders (wrote : bool) (cs : list Call) : list Call :=
  match cs with
  | [] => []
  | CalledWriteHeader code :: cs' =>
      if wrote then dropLaterHeaders true cs'
      else CalledWriteHeader code :: dropLaterHeaders true cs'
  | c :: cs' => c :: dropLaterHeaders wrote cs'
  end.

(** A stream after it has received the calls [cs]. *)
Fixpoint replay (cs : list Call) (s : Wr) : Wr :=
  match cs with
  | [] => s
  | CalledWriteHeader code :: cs' => replay cs' (rw_WriteHeader code s)
  | CalledHeader :: cs' => replay cs' s
  | CalledWrite data _ _ :: cs' => replay cs' (snd (rw_Write data s))
  end.

(** Every [Write] among the calls was accepted whole. *)
Definition wholeWrite (c : Call) : Prop :=
  match c with
  | CalledWrite data written _ => written = Z.of_nat (length data)
  | _ => True
  end.

(** The timers a poller sees fire before its first receive from
    [doneChan], and the slow emissions for a list of timers, numbered
    from [i]. *)
Fixpoint timersBeforeDone (sel : list Selected)
  : list (loggedRequest * Duration) :=
  match sel with
  | TimerFired lr since :: sel' => (lr, since) :: timersBeforeDone sel'
  | _ => []
  end.

Fixpoint slowEntries (r : Request) (start : Time) (i : Z)
  (ts : list (loggedRequest * Duration)) : list Emission :=
  match ts with
  | [] => []
  | (lr, since) :: ts' =>
      LogSlowRequest (logDataOf r start since lr) i
      :: slowEntries r start (i + 1) ts'
  end.

Definition isRecvDone (o : Selected) : bool :=
  match o with RecvDone => true | TimerFired _ _ => false end.

(** A caller that serves requests one after the other on the same stream,
    as the loop of [BenchmarkLogsRequest] does,
    [for ... { middle.ServeHTTP(w, r) }]; each request comes with the
    readings of the clock for it.  A panic that leaves [ServeHTTP] ends the
    loop.  The result: the emissions, the stream and the panic in flight. *)
Fixpoint serveAll (lh : logHandler) (w0 : Wr)
  (rs : list (Request * Time * Duration))
  : list Emission * Wr * option any :=
  match rs with
  | [] => ([], w0, None)
  | (r, now, since) :: rs' =>
      let s := ServeHTTP lh w0 r now since in
      match propagated s with
      | Some v => (emitted s, w (response s), Some v)
      | None =>
          let '(es, w', p) := serveAll lh (w (response s)) rs' in
          (emitted s ++ es, w', p)
      end
  end.

(** The states the interceptor goes through while a handler runs: before
    each of its calls and when it stops.  These are the states a
    [currentData] of the poller can find. *)
Fixpoint states (h : Handler) (lr : loggedRequest) : list loggedRequest :=
  lr ::
  match h with
  | Return => []
  | Panic _ => []
  | CallWriteHeader code k => states k (WriteHeader code lr)
  | CallHeader k => states (k (Header lr)) lr
  | CallWrite data k =>
      let '(written, err, lr1) := Write data lr in
      states (k written err) lr1
  end.

(** * Properties *)

(** ** Arithmetic of [int64] *)

Lemma Int64_wrap_in_range (z : Z) : Int64.in_range z -> Int64.wrap z = z.
Proof.
  unfold Int64.in_range, Int64.min_signed, Int64.max_signed, Int64.wrap,
    Int64.modulus.
  intros Hz. rewrite Z.mod_small; lia.
Qed.

Lemma Int64_wrap_add_l (a b : Z) :
  Int64.wrap (Int64.wrap a + b) = Int64.wrap (a + b).
Proof.
  unfold Int64.wrap, Int64.modulus.
  replace ((a + 2 ^ 63) mod 2 ^ 64 - 2 ^ 63 + b + 2 ^ 63)
    with ((a + 2 ^ 63) mod 2 ^ 64 + b) by lia.
  rewrite Zplus_mod_idemp_l.
  replace (a + 2 ^ 63 + b) with (a + b + 2 ^ 63) by lia.
  reflexivity.
Qed.

Lemma Int64_wrap_range (z : Z) : Int64.in_range (Int64.wrap z).
Proof.
  unfold Int64.in_range, Int64.min_signed, Int64.max_signed, Int64.wrap,
    Int64.modulus.
  pose proof (Z.mod_pos_bound (z + 2 ^ 63) (2 ^ 64) ltac:(lia)). lia.
Qed.

(** ** The interceptor, one call at a time *)

Lemma Write_result (data : list byte) (lr : loggedRequest) :
  fst (Write data lr) = fst (rw_Write data (w lr)).
Proof.
  unfold Write. destruct (rw_Write data (w lr)) as [[written err] w'].
  reflexivity.
Qed.

Lemma Write_state (data : list byte) (lr : loggedRequest) :
  snd (Write data lr) =
  {| w := snd (rw_Write data (w lr));
     status := status lr;
     wroteHeader := wroteHeader lr;
     bytesWritten :=
       Int64.wrap (bytesWritten lr + fst (fst (rw_Write data (w lr)))) |}.
Proof.
  unfold Write. destruct (rw_Write data (w lr)) as [[written err] w'].
  reflexivity.
Qed.

Lemma WriteHeader_first (code : Z) (lr : loggedRequest) :
  wroteHeader lr = false ->
  WriteHeader code lr =
  {| w := rw_WriteHeader code (w lr); status := code; wroteHeader := true;
     bytesWritten := bytesWritten lr |}.
Proof. intros Hfirst. unfold WriteHeader. rewrite Hfirst. reflexivity. Qed.

Lemma WriteHeader_later (code : Z) (lr : loggedRequest) :
  wroteHeader lr = true -> WriteHeader code lr = lr.
Proof. intros Hlater. unfold WriteHeader. rewrite Hlater. reflexivity. Qed.

Lemma WriteHeader_wroteHeader (code : Z) (lr : loggedRequest) :
  wroteHeader (WriteHeader code lr) = true.
Proof. unfold WriteHeader. destruct (wroteHeader lr) eqn:E; [exact E | reflexivity]. Qed.

Lemma WriteHeader_bytesWritten (code : Z) (lr : loggedRequest) :
  bytesWritten (WriteHeader code lr) = bytesWritten lr.
Proof. unfold WriteHeader. destruct (wroteHeader lr); reflexivity. Qed.

(** ** The interceptor along a handler *)

(** The counter after the handler is the counter before plus the counts
    returned to its writes, as an [int64]. *)
Lemma serve_bytesWritten (h : Handler) :
  forall (lr : loggedRequest) (x : Z),
    bytesWritten lr = Int64.wrap x ->
    bytesWritten (snd (fst (serve h lr))) =
    Int64.wrap (x + writtenSum (fst (fst (serve h lr)))).
Proof.
  induction h as [ | v | code k IH | k IH | data k IH ]; intros lr x Hx; simpl.
  - rewrite Z.add_0_r. exact Hx.
  - rewrite Z.add_0_r. exact Hx.
  - specialize (IH (WriteHeader code lr) x).
    destruct (serve k (WriteHeader code lr)) as [[cs lr'] p]. simpl in *.
    apply IH. rewrite WriteHeader_bytesWritten. exact Hx.
  - specialize (IH (Header lr) lr x Hx).
    destruct (serve (k (Header lr)) lr) as [[cs lr'] p]. simpl in *. exact IH.
  - pose proof (Write_state data lr) as Hst.
    destruct (Write data lr) as [[written err] lr1] eqn:EW. simpl in Hst.
    pose proof (Write_result data lr) as Hres. rewrite EW in Hres.
    simpl in Hres.
    specialize (IH written err lr1 (x + written)).
    destruct (serve (k written err) lr1) as [[cs lr'] p]. simpl in *.
    rewrite Z.add_assoc. apply IH.
    rewrite Hst. simpl. rewrite <- Hres. simpl.
    rewrite Hx. apply Int64_wrap_add_l.
Qed.

(** The status after the handler: the one already recorded, or else the
    argument of the handler's first [WriteHeader]. *)
Lemma serve_status (h : Handler) :
  forall lr : loggedRequest,
    status (snd (fst (serve h lr))) =
    if wroteHeader lr then status lr
    else match firstStatus (fst (fst (serve h lr))) with
         | Some code => code
         | None => status lr
         end.
Proof.
  induction h as [ | v | code k IH | k IH | data k IH ]; intros lr; simpl.
  - destruct (wroteHeader lr); reflexivity.
  - destruct (wroteHeader lr); reflexivity.
  - specialize (IH (WriteHeader code lr)).
    rewrite WriteHeader_wroteHeader in IH.
    destruct (serve k (WriteHeader code lr)) as [[cs lr'] p]. simpl in *.
    rewrite IH. unfold WriteHeader.
    destruct (wroteHeader lr); reflexivity.
  - specialize (IH (Header lr) lr).
    destruct (serve (k (Header lr)) lr) as [[cs lr'] p]. simpl in *. exact IH.
  - pose proof (Write_state data lr) as Hst.
    destruct (Write data lr) as [[written err] lr1] eqn:EW. simpl in Hst.
    specialize (IH written err lr1).
    destruct (serve (k written err) lr1) as [[cs lr'] p]. simpl in *.
    rewrite IH, Hst. simpl. reflexivity.
Qed.

(** ** The dispatcher, field by field *)

Lemma completion_emitted (lh : logHandler) (doneChan : option Goroutine)
  (r : Request) (start : Time) (since : Duration) (lr : loggedRequest)
  (panicking : option any) :
  snd (fst (completion lh doneChan r start since lr panicking)) =
  match panicLogger lh, panicking with
  | Some _, Some err => [LogPanic (logDataOf r start since lr) err]
  | _, _ => [LogRequest (logDataOf r start since lr)]
  end.
Proof.
  unfold completion, recover, logDataOf. simpl.
  destruct (panicLogger lh), panicking; reflexivity.
Qed.

Lemma completion_propagated (lh : logHandler) (doneChan : option Goroutine)
  (r : Request) (start : Time) (since : Duration) (lr : loggedRequest)
  (panicking : option any) :
  snd (completion lh doneChan r start since lr panicking) =
  match panicLogger lh with
  | Some _ => None
  | None => panicking
  end.
Proof.
  unfold completion, recover. simpl.
  destruct (panicLogger lh), panicking; reflexivity.
Qed.

Lemma ServeHTTP_calls (lh : logHandler) (w0 : Wr) (r : Request)
  (now : Time) (since : Duration) :
  calls (ServeHTTP lh w0 r now since) =
  fst (fst (serve (next lh r) (newLoggedRequest w0))).
Proof.
  unfold ServeHTTP.
  destruct (serve (next lh r) (newLoggedRequest w0)) as [[cs lr'] p].
  destruct (completion _ _ _ _ _ _ _) as [[closed es] p']. reflexivity.
Qed.

Lemma ServeHTTP_response (lh : logHandler) (w0 : Wr) (r : Request)
  (now : Time) (since : Duration) :
  response (ServeHTTP lh w0 r now since) =
  snd (fst (serve (next lh r) (newLoggedRequest w0))).
Proof.
  unfold ServeHTTP.
  destruct (serve (next lh r) (newLoggedRequest w0)) as [[cs lr'] p].
  destruct (completion _ _ _ _ _ _ _) as [[closed es] p']. reflexivity.
Qed.

Lemma ServeHTTP_emitted (lh : logHandler) (w0 : Wr) (r : Request)
  (now : Time) (since : Duration) :
  emitted (ServeHTTP lh w0 r now since) =
  let s := ServeHTTP lh w0 r now since in
  match panicLogger lh, snd (serve (next lh r) (newLoggedRequest w0)) with
  | Some _, Some err => [LogPanic (logDataOf r now since (response s)) err]
  | _, _ => [LogRequest (logDataOf r now since (response s))]
  end.
Proof.
  cbv zeta. rewrite ServeHTTP_response. unfold ServeHTTP.
  destruct (serve (next lh r) (newLoggedRequest w0)) as [[cs lr'] p].
  match goal with
  | |- context [completion ?a ?b ?c ?d ?e ?f ?g] =>
      pose proof (completion_emitted a b c d e f g) as Hem;
      destruct (completion a b c d e f g) as [[closed es] p']
  end.
  simpl in *. exact Hem.
Qed.

Lemma ServeHTTP_propagated (lh : logHandler) (w0 : Wr) (r : Request)
  (now : Time) (since : Duration) :
  propagated (ServeHTTP lh w0 r now since) =
  match panicLogger lh with
  | Some _ => None
  | None => snd (serve (next lh r) (newLoggedRequest w0))
  end.
Proof.
  unfold ServeHTTP.
  destruct (serve (next lh r) (newLoggedRequest w0)) as [[cs lr'] p].
  match goal with
  | |- context [completion ?a ?b ?c ?d ?e ?f ?g] =>
      pose proof (completion_propagated a b c d e f g) as Hpr;
      destruct (completion a b c d e f g) as [[closed es] p']
  end.
  simpl in *. exact Hpr.
Qed.

Lemma ServeHTTP_spawned (lh : logHandler) (w0 : Wr) (r : Request)
  (now : Time) (since : Duration) :
  spawned (ServeHTTP lh w0 r now since) =
  match slowLogger lh with
  | Some sl =>
      if 0 <? Cutoff sl r
      then Some {| go_cutoff := Cutoff sl r; go_multiple := MultipleLogs sl r;
                   go_r := r; go_start := now |}
      else None
  | None => None
  end.
Proof.
  unfold ServeHTTP.
  destruct (serve (next lh r) (newLoggedRequest w0)) as [[cs lr'] p].
  destruct (completion _ _ _ _ _ _ _) as [[closed es] p']. reflexivity.
Qed.

Lemma ServeHTTP_doneClosed (lh : logHandler) (w0 : Wr) (r : Request)
  (now : Time) (since : Duration) :
  doneClosed (ServeHTTP lh w0 r now since) =
  match spawned (ServeHTTP lh w0 r now since) with
  | Some _ => true
  | None => false
  end.
Proof.
  unfold ServeHTTP.
  destruct (serve (next lh r) (newLoggedRequest w0)) as [[cs lr'] p].
  unfold completion, recover. simpl.
  destruct (panicLogger lh), p; reflexivity.
Qed.

(** Every emission of the handling goroutine carries the snapshot taken
    when the handler has stopped. *)
Lemma ServeHTTP_entry (lh : logHandler) (w0 : Wr) (r : Request)
  (now : Time) (since : Duration) (e : Emission) :
  let s := ServeHTTP lh w0 r now since in
  In e (emitted s) -> entry e = logDataOf r now since (response s).
Proof.
  cbv zeta. rewrite ServeHTTP_emitted. cbv zeta.
  destruct (panicLogger lh), (snd (serve (next lh r) (newLoggedRequest w0)));
    simpl; intros [<- | []]; reflexivity.
Qed.

(** ** The terminal event *)

(** C1. Every run of [ServeHTTP] makes exactly one terminal call on the
    observer: one [LogRequest] and no [LogPanic], or one [LogPanic] and no
    [LogRequest]; never both, never neither. *)
Theorem exactly_one_terminal_event (lh : logHandler) (w0 : Wr) (r : Request)
  (now : Time) (since : Duration) :
  let s := ServeHTTP lh w0 r now since in
  (count isLogRequest (emitted s) = 1%nat /\
   count isLogPanic (emitted s) = 0%nat) \/
  (count isLogRequest (emitted s) = 0%nat /\
   count isLogPanic (emitted s) = 1%nat).
Proof.
  cbv zeta. rewrite ServeHTTP_emitted. cbv zeta.
  destruct (panicLogger lh) as [pl | ];
    destruct (snd (serve (next lh r) (newLoggedRequest w0))) as [err | ];
    simpl; auto.
Qed.

(** C2, as the code has it. When the handler panics and the observer does
    not implement [PanicLogger], the panic propagates to the caller of
    [ServeHTTP] with its value unchanged and no [LogPanic] is made, but the
    deferred function still makes its one [LogRequest], with the snapshot
    taken at the panic. *)
Theorem panic_without_PanicLogger_propagates
  (nxt : Request -> Handler) (observer : RequestLogger) (w0 : Wr)
  (r : Request) (now : Time) (since : Duration) (v : any) :
  implPanicLogger observer = None ->
  snd (serve (nxt r) (newLoggedRequest w0)) = Some v ->
  let s := ServeHTTP (LoggerMiddleware nxt observer) w0 r now since in
  propagated s = Some v /\
  emitted s = [LogRequest (logDataOf r now since (response s))] /\
  count isLogPanic (emitted s) = 0%nat.
Proof.
  intros Hnone Hpanic. cbv zeta.
  rewrite ServeHTTP_propagated, ServeHTTP_emitted. cbv zeta. simpl.
  rewrite Hnone, Hpanic. simpl. auto.
Qed.

(** C5. When the handler panics and the observer implements [PanicLogger],
    [ServeHTTP] recovers the panic: it makes exactly one [LogPanic],
    carrying the value of the panic, makes no [LogRequest], and returns
    normally. *)
Theorem panic_with_PanicLogger_recovered
  (nxt : Request -> Handler) (observer : RequestLogger) (w0 : Wr)
  (r : Request) (now : Time) (since : Duration) (pl : PanicLogger) (v : any) :
  implPanicLogger observer = Some pl ->
  snd (serve (nxt r) (newLoggedRequest w0)) = Some v ->
  let s := ServeHTTP (LoggerMiddleware nxt observer) w0 r now since in
  emitted s = [LogPanic (logDataOf r now since (response s)) v] /\
  count isLogPanic (emitted s) = 1%nat /\
  count isLogRequest (emitted s) = 0%nat /\
  propagated s = None.
Proof.
  intros Hsome Hpanic. cbv zeta.
  rewrite ServeHTTP_propagated, ServeHTTP_emitted. cbv zeta. simpl.
  rewrite Hsome, Hpanic. simpl. auto.
Qed.

(** ** Bytes written *)

(** C10. [Write] hands back to the handler the very pair, count and error,
    that the underlying stream returned. *)
Theorem Write_returns_what_the_stream_returned
  (data : list byte) (lr : loggedRequest) :
  fst (Write data lr) = fst (rw_Write data (w lr)).
Proof.
  unfold Write. destruct (rw_Write data (w lr)) as [res w']. destruct res.
  reflexivity.
Qed.

(** C3, as the code has it. A [Write] adds to the counter the count the
    underlying stream returned for it, and the terminal entry's
    [BytesWritten] is the sum of the counts returned to the writes of the
    handler; both as long as the sum fits an [int64]. *)
Theorem Write_adds_the_returned_count :
  (forall (data : list byte) (lr : loggedRequest),
      Int64.in_range (bytesWritten lr + fst (fst (Write data lr))) ->
      bytesWritten (snd (Write data lr)) =
      bytesWritten lr + fst (fst (Write data lr))) /\
  (forall (lh : logHandler) (w0 : Wr) (r : Request) (now : Time)
          (since : Duration) (e : Emission),
      let s := ServeHTTP lh w0 r now since in
      Int64.in_range (writtenSum (calls s)) ->
      In e (emitted s) ->
      BytesWritten (entry e) = writtenSum (calls s)).
Proof.
  split.
  - intros data lr Hfit. rewrite Write_state, Write_result in *. simpl.
    apply Int64_wrap_in_range. exact Hfit.
  - intros lh w0 r now since e s Hfit Hin. subst s.
    rewrite (ServeHTTP_entry lh w0 r now since e Hin). simpl.
    rewrite ServeHTTP_response, ServeHTTP_calls in *.
    rewrite (serve_bytesWritten (next lh r) (newLoggedRequest w0) 0)
      by reflexivity.
    simpl. apply Int64_wrap_in_range. exact Hfit.
Qed.

(** Where the stream accepts every slice whole, the count added is the
    length of the slice. *)
Lemma Write_adds_len_when_whole (data : list byte) (lr : loggedRequest) :
  fst (fst (rw_Write data (w lr))) = Z.of_nat (length data) ->
  Int64.in_range (bytesWritten lr + Z.of_nat (length data)) ->
  bytesWritten (snd (Write data lr)) = bytesWritten lr + Z.of_nat (length data).
Proof.
  intros Hwhole Hfit. rewrite Write_state. simpl. rewrite Hwhole.
  apply Int64_wrap_in_range. exact Hfit.
Qed.


(** ** The recorded status *)

(** C4. Of any sequence of [WriteHeader] calls on a fresh interceptor the
    first alone is forwarded to the stream and sets the recorded status.  A
    call made once the header is written changes nothing, and the header
    stays written through every method.  With no call the status is 0, so
    that the terminal entry's [Status] is the argument of the handler's
    first [WriteHeader], or 0 if it made none. *)
Theorem WriteHeader_first_call_wins :
  (forall (w0 : Wr) (code : Z) (codes : list Z),
      fold_left (fun lr c => WriteHeader c lr) (code :: codes)
        (newLoggedRequest w0) =
      {| w := rw_WriteHeader code w0; status := code; wroteHeader := true;
         bytesWritten := 0 |}) /\
  (forall (lr : loggedRequest) (code : Z),
      wroteHeader lr = true -> WriteHeader code lr = lr) /\
  (forall (m : Operation) (lr : loggedRequest),
      wroteHeader lr = true -> wroteHeader (invoke m lr) = true) /\
  (forall (lr : loggedRequest) (code : Z),
      wroteHeader (WriteHeader code lr) = true) /\
  (forall w0 : Wr, status (newLoggedRequest w0) = 0) /\
  (forall (lh : logHandler) (w0 : Wr) (r : Request) (now : Time)
          (since : Duration) (e : Emission),
      let s := ServeHTTP lh w0 r now since in
      In e (emitted s) ->
      Status (entry e) =
      match firstStatus (calls s) with Some code => code | None => 0 end).
Proof.
  assert (Hlater : forall (cs : list Z) (lr : loggedRequest),
             wroteHeader lr = true ->
             fold_left (fun lr c => WriteHeader c lr) cs lr = lr).
  { induction cs as [ | c cs IH]; intros lr Hlr; simpl.
    - reflexivity.
    - rewrite (WriteHeader_later c lr Hlr). apply IH. exact Hlr. }
  split; [ | split; [ | split; [ | split; [ | split]]]].
  - intros w0 code codes. simpl. apply Hlater. reflexivity.
  - intros lr code. apply WriteHeader_later.
  - intros m lr Hlr. destruct m as [code | | data | ]; simpl.
    + apply WriteHeader_wroteHeader.
    + exact Hlr.
    + rewrite Write_state. simpl. exact Hlr.
    + exact Hlr.
  - intros lr code. apply WriteHeader_wroteHeader.
  - intros w0. reflexivity.
  - intros lh w0 r now since e s Hin. subst s.
    rewrite (ServeHTTP_entry lh w0 r now since e Hin). simpl.
    rewrite ServeHTTP_response, ServeHTTP_calls.
    rewrite serve_status. reflexivity.
Qed.

(** ** The poller *)

Lemma slowLog_from_done (multiple : bool) (r : Request) (start : Time)
  (i : Z) (sel : list Selected) :
  slowLog_from multiple r start i (RecvDone :: sel) = ([], true).
Proof. simpl. destruct (multiple || (i =? 0)); reflexivity. Qed.

(** What is emitted before a [select] that receives from [doneChan] does
    not depend on what would be observed afterwards. *)
Lemma slowLog_from_cancelled (multiple : bool) (r : Request) (start : Time)
  (pre post : list Selected) :
  forall i : Z,
    slowLog_from multiple r start i (pre ++ RecvDone :: post) =
    (fst (slowLog_from multiple r start i pre), true).
Proof.
  induction pre as [ | [ | lr since] pre IH]; intros i.
  - rewrite app_nil_l, slowLog_from_done. simpl.
    destruct (multiple || (i =? 0)); reflexivity.
  - rewrite <- app_comm_cons, !slowLog_from_done. reflexivity.
  - rewrite <- app_comm_cons. simpl.
    destruct (multiple || (i =? 0)); [ | reflexivity].
    rewrite IH.
    destruct (slowLog_from multiple r start (Int64.wrap (i + 1)) pre)
      as [es returned].
    reflexivity.
Qed.

(** Without repetition the loop is entered at index 0 only. *)
Lemma slowLog_from_once (r : Request) (start : Time) (i : Z)
  (sel : list Selected) :
  i <> 0 -> slowLog_from false r start i sel = ([], true).
Proof.
  intros Hi. destruct sel; simpl; destruct (Z.eqb_spec i 0); try contradiction;
    reflexivity.
Qed.

Lemma slowLog_once_timer (cutoff : Duration) (r : Request) (start : Time)
  (lr : loggedRequest) (since : Duration) (sel : list Selected) :
  slowLog cutoff false r start (TimerFired lr since :: sel) =
  ([LogSlowRequest (logDataOf r start since lr) 0], true).
Proof.
  unfold slowLog. simpl.
  rewrite slowLog_from_once by (cbv; discriminate).
  reflexivity.
Qed.

(** C6. When the observer lacks [SlowRequestLogger], or its cutoff for the
    request is not positive, [ServeHTTP] starts no poller and closes no
    channel, and the request has no slow emission, from the handling
    goroutine or from a poller, whatever a poller could have observed. *)
Theorem no_poller_without_positive_cutoff
  (nxt : Request -> Handler) (observer : RequestLogger) (w0 : Wr)
  (r : Request) (now : Time) (since : Duration) (sel : list Selected) :
  (implSlowRequestLogger observer = None \/
   exists sl : SlowRequestLogger,
     implSlowRequestLogger observer = Some sl /\ Cutoff sl r <= 0) ->
  let s := ServeHTTP (LoggerMiddleware nxt observer) w0 r now since in
  spawned s = None /\
  doneClosed s = false /\
  slowEmissions s sel = [] /\
  count isLogSlowRequest (emitted s) = 0%nat.
Proof.
  intros Hoff. cbv zeta.
  assert (Hspawned :
    spawned (ServeHTTP (LoggerMiddleware nxt observer) w0 r now since) = None).
  { rewrite ServeHTTP_spawned. simpl.
    destruct Hoff as [-> | [sl [-> Hcut]]]; [reflexivity | ].
    destruct (Z.ltb_spec 0 (Cutoff sl r)); [lia | reflexivity]. }
  unfold slowEmissions. rewrite ServeHTTP_doneClosed, Hspawned.
  repeat split.
  rewrite ServeHTTP_emitted. cbv zeta. simpl.
  destruct (implPanicLogger observer),
    (snd (serve (nxt r) (newLoggedRequest w0))); reflexivity.
Qed.

(** C7. Without repetition the poller emits at most one slow event, with
    index 0, and it has returned once it has emitted: a timer firing in the
    first [select] gives one emission and the return of the goroutine. *)
Theorem slowLog_once_emits_at_most_once (cutoff : Duration) (r : Request)
  (start : Time) (sel : list Selected) :
  let out := slowLog cutoff false r start sel in
  (length (fst out) <= 1)%nat /\
  (forall (ld : LogData) (i : Z), In (LogSlowRequest ld i) (fst out) -> i = 0) /\
  (fst out = [] \/ snd out = true) /\
  (forall (lr : loggedRequest) (since : Duration) (sel' : list Selected),
      slowLog cutoff false r start (TimerFired lr since :: sel') =
      ([LogSlowRequest (logDataOf r start since lr) 0], true)).
Proof.
  cbv zeta. split; [ | split; [ | split]].
  - destruct sel as [ | [ | lr since] sel'].
    + simpl. lia.
    + simpl. lia.
    + rewrite slowLog_once_timer. simpl. lia.
  - intros ld i. destruct sel as [ | [ | lr since] sel'].
    + simpl. intros [].
    + simpl. intros [].
    + rewrite slowLog_once_timer. simpl. intros [Heq | []].
      injection Heq as _ Hi. symmetry. exact Hi.
  - destruct sel as [ | [ | lr since] sel'].
    + left. reflexivity.
    + left. reflexivity.
    + right. rewrite slowLog_once_timer. reflexivity.
  - intros lr since sel'. apply slowLog_once_timer.
Qed.

(** C8. In any iteration of the poller, a [select] that receives from
    [doneChan] makes the goroutine return with no emission; and once that
    has happened nothing more is emitted: the emissions of a run in which
    cancellation is observed after [pre] are those made during [pre]. *)
Theorem slowLog_silent_after_cancellation (cutoff : Duration)
  (multiple : bool) (r : Request) (start : Time) :
  (forall (i : Z) (post : list Selected),
      slowLog_from multiple r start i (RecvDone :: post) = ([], true)) /\
  (forall pre post : list Selected,
      slowLog cutoff multiple r start (pre ++ RecvDone :: post) =
      (fst (slowLog cutoff multiple r start pre), true)).
Proof.
  split.
  - intros i post. simpl. destruct (multiple || (i =? 0)); reflexivity.
  - intros pre post. unfold slowLog. apply slowLog_from_cancelled.
Qed.

(** * Further properties *)

(** ** What reaches the stream *)

Lemma serve_forwarded (h : Handler) :
  forall lr : loggedRequest,
    w (snd (fst (serve h lr))) =
    replay (dropLaterHeaders (wroteHeader lr) (fst (fst (serve h lr)))) (w lr).
Proof.
  induction h as [ | v | code k IH | k IH | data k IH ]; intros lr; simpl.
  - reflexivity.
  - reflexivity.
  - specialize (IH (WriteHeader code lr)).
    rewrite WriteHeader_wroteHeader in IH.
    destruct (serve k (WriteHeader code lr)) as [[cs lr'] p]. simpl in *.
    rewrite IH. unfold WriteHeader.
    destruct (wroteHeader lr); reflexivity.
  - specialize (IH (Header lr) lr).
    destruct (serve (k (Header lr)) lr) as [[cs lr'] p]. simpl in *. exact IH.
  - pose proof (Write_state data lr) as Hst.
    destruct (Write data lr) as [[written err] lr1] eqn:EW. simpl in Hst.
    specialize (IH written err lr1).
    destruct (serve (k written err) lr1) as [[cs lr'] p]. simpl in *.
    rewrite IH, Hst. reflexivity.
Qed.

(** Through the interceptor the calls of a handler on the three methods
    of [http.ResponseWriter], when it would call [WriteHeader] at most once
    on the stream, are the same, with the same results, leave the same
    stream and end the same way. *)
Lemma serve_direct (h : Handler) :
  forall lr : loggedRequest,
    (headerCalls (fst (fst (direct h (w lr)))) <=
     if wroteHeader lr then 0 else 1)%nat ->
    fst (fst (serve h lr)) = fst (fst (direct h (w lr))) /\
    w (snd (fst (serve h lr))) = snd (fst (direct h (w lr))) /\
    snd (serve h lr) = snd (direct h (w lr)).
Proof.
  induction h as [ | v | code k IH | k IH | data k IH ]; intros lr Hn; simpl.
  - auto.
  - auto.
  - simpl in Hn.
    destruct (wroteHeader lr) eqn:Hw.
    + destruct (direct k (rw_WriteHeader code (w lr))) as [[cs s'] p].
      simpl in Hn. lia.
    + specialize (IH (WriteHeader code lr)).
      rewrite WriteHeader_wroteHeader in IH.
      rewrite (WriteHeader_first code lr Hw) in *. simpl in IH.
      destruct (direct k (rw_WriteHeader code (w lr))) as [[cs s'] p].
      simpl in Hn, IH.
      destruct (serve k _) as [[cs1 lr'] p1]. simpl in *.
      destruct IH as [-> [-> ->]]; [lia | auto].
  - specialize (IH (rw_Header (w lr)) lr). simpl in Hn. unfold Header.
    destruct (direct (k (rw_Header (w lr))) (w lr)) as [[cs s'] p].
    destruct (serve (k (rw_Header (w lr))) lr) as [[cs1 lr'] p1].
    simpl in *. destruct (IH Hn) as [-> [-> ->]]. auto.
  - simpl in Hn. unfold Write.
    destruct (rw_Write data (w lr)) as [[written err] s1].
    match goal with
    | |- context [serve (k written err) ?l] => specialize (IH written err l)
    end.
    simpl in IH.
    destruct (direct (k written err) s1) as [[cs s'] p].
    destruct (serve (k written err) _) as [[cs1 lr'] p1].
    simpl in *. destruct (IH Hn) as [-> [-> ->]]. auto.
Qed.

(** X1. For a handler that uses its [http.ResponseWriter] through
    [Header], [Write] and [WriteHeader] only, and calls [WriteHeader] at
    most once, the middleware passes these calls through unchanged: the
    calls, their results and the stream left are those of the same calls
    made on the bare stream, and so is the panic, unless the observer
    implements [PanicLogger], in which case none leaves [ServeHTTP].
    Nothing is said of a handler that asserts its writer to another
    interface: [*loggedRequest] has the three methods only. *)
Theorem interface_calls_pass_through
  (nxt : Request -> Handler) (observer : RequestLogger) (w0 : Wr)
  (r : Request) (now : Time) (since : Duration) :
  (headerCalls (fst (fst (direct (nxt r) w0))) <= 1)%nat ->
  let s := ServeHTTP (LoggerMiddleware nxt observer) w0 r now since in
  calls s = fst (fst (direct (nxt r) w0)) /\
  w (response s) = snd (fst (direct (nxt r) w0)) /\
  propagated s =
  match implPanicLogger observer with
  | Some _ => None
  | None => snd (direct (nxt r) w0)
  end.
Proof.
  intros Hn. cbv zeta.
  rewrite ServeHTTP_calls, ServeHTTP_response, ServeHTTP_propagated. simpl.
  destruct (serve_direct (nxt r) (newLoggedRequest w0) Hn) as [Hc [Hw Hp]].
  simpl in Hw. rewrite Hc, Hw, Hp. auto.
Qed.

(** X2. Whatever the handler does, the stream receives its calls in
    order, less every [WriteHeader] that follows a first one. *)
Theorem stream_receives_first_header_only (lh : logHandler) (w0 : Wr)
  (r : Request) (now : Time) (since : Duration) :
  let s := ServeHTTP lh w0 r now since in
  w (response s) = replay (dropLaterHeaders false (calls s)) w0.
Proof.
  cbv zeta. rewrite ServeHTTP_calls, ServeHTTP_response.
  apply (serve_forwarded (next lh r) (newLoggedRequest w0)).
Qed.

(** ** More on the bytes written *)

Lemma lenSum_nonneg (cs : list Call) : 0 <= lenSum cs.
Proof.
  induction cs as [ | [code | | data written err] cs IH]; simpl; lia.
Qed.

Lemma wholeWrites_sum (cs : list Call) :
  Forall wholeWrite cs -> writtenSum cs = lenSum cs.
Proof.
  induction 1 as [ | c cs Hc _ IH]; simpl.
  - reflexivity.
  - destruct c as [code | | data written err]; simpl in Hc; lia.
Qed.

(** With a stream that honours [io.Writer], the counts returned to a
    handler add up to something between 0 and the lengths written. *)
Lemma serve_written_bounds (h : Handler) :
  io_Writer_contract ->
  forall lr : loggedRequest,
    0 <= writtenSum (fst (fst (serve h lr))) <= lenSum (fst (fst (serve h lr))).
Proof.
  intros Hcontract.
  induction h as [ | v | code k IH | k IH | data k IH ]; intros lr; simpl.
  - lia.
  - lia.
  - specialize (IH (WriteHeader code lr)).
    destruct (serve k (WriteHeader code lr)) as [[cs lr'] p]. simpl in *. lia.
  - specialize (IH (Header lr) lr).
    destruct (serve (k (Header lr)) lr) as [[cs lr'] p]. simpl in *. lia.
  - pose proof (Write_result data lr) as Hres.
    pose proof (Hcontract data (w lr)) as Hn. rewrite <- Hres in Hn.
    destruct (Write data lr) as [[written err] lr1]. simpl in Hn.
    specialize (IH written err lr1).
    destruct (serve (k written err) lr1) as [[cs lr'] p]. simpl in *. lia.
Qed.

Lemma Int64_wrap_congruent (z : Z) : (Int64.wrap z - z) mod 2 ^ 64 = 0.
Proof.
  unfold Int64.wrap, Int64.modulus.
  pose proof (Z.div_mod (z + 2 ^ 63) (2 ^ 64) ltac:(lia)) as Hdm.
  replace ((z + 2 ^ 63) mod 2 ^ 64 - 2 ^ 63 - z)
    with (- ((z + 2 ^ 63) / 2 ^ 64) * 2 ^ 64) by lia.
  apply Z_mod_mult.
Qed.

(** X3. With a stream that honours the contract of [io.Writer], the
    terminal entry never shows more bytes than the handler wrote, nor a
    negative count, as long as what it wrote fits an [int64]. *)
Theorem BytesWritten_within_what_was_written (lh : logHandler) (w0 : Wr)
  (r : Request) (now : Time) (since : Duration) (e : Emission) :
  io_Writer_contract ->
  let s := ServeHTTP lh w0 r now since in
  lenSum (calls s) <= Int64.max_signed ->
  In e (emitted s) ->
  0 <= BytesWritten (entry e) <= lenSum (calls s).
Proof.
  intros Hcontract s Hfit Hin. subst s.
  rewrite (ServeHTTP_entry lh w0 r now since e Hin). simpl.
  rewrite ServeHTTP_response, ServeHTTP_calls in *.
  rewrite (serve_bytesWritten (next lh r) (newLoggedRequest w0) 0)
    by reflexivity.
  pose proof (serve_written_bounds (next lh r) Hcontract (newLoggedRequest w0))
    as Hb.
  simpl. rewrite Int64_wrap_in_range; [lia | ].
  unfold Int64.in_range, Int64.min_signed. lia.
Qed.

(** X4. When the stream accepted every slice whole, the terminal entry
    shows the total length of the slices the handler wrote, as long as it
    fits an [int64]. *)
Theorem BytesWritten_is_total_length_of_whole_writes (lh : logHandler)
  (w0 : Wr) (r : Request) (now : Time) (since : Duration) (e : Emission) :
  let s := ServeHTTP lh w0 r now since in
  Forall wholeWrite (calls s) ->
  lenSum (calls s) <= Int64.max_signed ->
  In e (emitted s) ->
  BytesWritten (entry e) = lenSum (calls s).
Proof.
  intros s Hwhole Hfit Hin. subst s.
  rewrite (ServeHTTP_entry lh w0 r now since e Hin). simpl.
  rewrite ServeHTTP_response, ServeHTTP_calls in *.
  rewrite (serve_bytesWritten (next lh r) (newLoggedRequest w0) 0)
    by reflexivity.
  simpl. rewrite (wholeWrites_sum _ Hwhole).
  pose proof (lenSum_nonneg (fst (fst (serve (next lh r) (newLoggedRequest w0)))))
    as Hpos.
  apply Int64_wrap_in_range.
  unfold Int64.in_range, Int64.min_signed. lia.
Qed.

(** X5. Whatever the stream returns, the terminal entry's [BytesWritten]
    is an [int64] congruent modulo 2^64 to the sum of the counts returned
    to the handler's writes: past the range the counter wraps around. *)
Theorem BytesWritten_wraps_around (lh : logHandler) (w0 : Wr)
  (r : Request) (now : Time) (since : Duration) (e : Emission) :
  let s := ServeHTTP lh w0 r now since in
  In e (emitted s) ->
  Int64.in_range (BytesWritten (entry e)) /\
  (BytesWritten (entry e) - writtenSum (calls s)) mod 2 ^ 64 = 0.
Proof.
  intros s Hin. subst s.
  rewrite (ServeHTTP_entry lh w0 r now since e Hin). simpl.
  rewrite ServeHTTP_response, ServeHTTP_calls.
  rewrite (serve_bytesWritten (next lh r) (newLoggedRequest w0) 0)
    by reflexivity.
  simpl. split.
  - apply Int64_wrap_range.
  - apply Int64_wrap_congruent.
Qed.

(** ** More on the poller *)

Lemma timersBeforeDone_length (sel : list Selected) :
  (length (timersBeforeDone sel) <= length sel)%nat.
Proof.
  induction sel as [ | [ | lr since] sel IH]; simpl; lia.
Qed.

Lemma slowLog_from_no_timer (multiple : bool) (r : Request) (start : Time)
  (i : Z) (sel : list Selected) :
  timersBeforeDone sel = [] ->
  fst (slowLog_from multiple r start i sel) = [].
Proof.
  destruct sel as [ | [ | lr since] sel]; simpl; intros Hno;
    try discriminate; destruct (multiple || (i =? 0)); reflexivity.
Qed.

(** With repetition, one emission per timer until [doneChan] is received
    from, numbered from the index the loop is at. *)
Lemma slowLog_from_entries (r : Request) (start : Time)
  (sel : list Selected) :
  forall i : Z,
    Int64.in_range i ->
    i + Z.of_nat (length (timersBeforeDone sel)) <= Int64.max_signed + 1 ->
    fst (slowLog_from true r start i sel) =
    slowEntries r start i (timersBeforeDone sel).
Proof.
  induction sel as [ | [ | lr since] sel IH]; intros i Hi Hlen.
  - reflexivity.
  - reflexivity.
  - cbn [timersBeforeDone length] in Hlen. rewrite Nat2Z.inj_succ in Hlen.
    simpl.
    destruct (timersBeforeDone sel) as [ | t ts] eqn:Hts.
    + pose proof (slowLog_from_no_timer true r start (Int64.wrap (i + 1))
                    sel Hts) as Hnone.
      destruct (slowLog_from true r start (Int64.wrap (i + 1)) sel)
        as [es returned].
      simpl in Hnone |- *. rewrite Hnone. reflexivity.
    + assert (Hnext : Int64.in_range (i + 1)).
      { cbn [length] in Hlen. rewrite Nat2Z.inj_succ in Hlen.
        unfold Int64.in_range in *. lia. }
      rewrite (Int64_wrap_in_range _ Hnext).
      specialize (IH (i + 1) Hnext).
      destruct (slowLog_from true r start (i + 1) sel) as [es returned].
      simpl fst in IH |- *. rewrite IH; [reflexivity | lia].
Qed.

Lemma slowLog_from_returned (r : Request) (start : Time)
  (sel : list Selected) :
  forall i : Z,
    snd (slowLog_from true r start i sel) = existsb isRecvDone sel.
Proof.
  induction sel as [ | [ | lr since] sel IH]; intros i; simpl.
  - reflexivity.
  - reflexivity.
  - specialize (IH (Int64.wrap (i + 1))).
    destruct (slowLog_from true r start (Int64.wrap (i + 1)) sel)
      as [es returned].
    exact IH.
Qed.

Lemma slowLog_from_after_return (multiple : bool) (r : Request)
  (start : Time) (a b : list Selected) :
  forall i : Z,
    snd (slowLog_from multiple r start i a) = true ->
    slowLog_from multiple r start i (a ++ b) = slowLog_from multiple r start i a.
Proof.
  induction a as [ | [ | lr since] a IH]; intros i Hret.
  - simpl in Hret.
    destruct b as [ | o b]; [reflexivity | ].
    simpl. destruct (multiple || (i =? 0)); [discriminate | reflexivity].
  - rewrite <- app_comm_cons, !slowLog_from_done. reflexivity.
  - rewrite <- app_comm_cons. simpl in Hret |- *.
    destruct (multiple || (i =? 0)); [ | reflexivity].
    specialize (IH (Int64.wrap (i + 1))).
    destruct (slowLog_from multiple r start (Int64.wrap (i + 1)) a)
      as [es returned].
    simpl in Hret. rewrite (IH Hret). reflexivity.
Qed.

Lemma slowLog_from_R_Start (multiple : bool) (r : Request) (start : Time)
  (sel : list Selected) :
  forall (i : Z) (e : Emission),
    In e (fst (slowLog_from multiple r start i sel)) ->
    R (entry e) = r /\ Start (entry e) = start.
Proof.
  induction sel as [ | [ | lr since] sel IH]; intros i e; simpl.
  - destruct (multiple || (i =? 0)); intros [].
  - destruct (multiple || (i =? 0)); intros [].
  - destruct (multiple || (i =? 0)); [ | intros []].
    specialize (IH (Int64.wrap (i + 1)) e).
    destruct (slowLog_from multiple r start (Int64.wrap (i + 1)) sel)
      as [es returned].
    simpl in *. intros [<- | Hin]; [split; reflexivity | exact (IH Hin)].
Qed.

(** X6. What the poller emits: with repetition one slow event for each
    timer that fires before the first receive from [doneChan], with indices
    0, 1, 2, ... and the snapshot read at that timer; without repetition
    the first of these only. *)
Theorem slowLog_emits_one_entry_per_timer (cutoff : Duration)
  (multiple : bool) (r : Request) (start : Time) (sel : list Selected) :
  Z.of_nat (length sel) <= Int64.max_signed ->
  fst (slowLog cutoff multiple r start sel) =
  if multiple then slowEntries r start 0 (timersBeforeDone sel)
  else firstn 1 (slowEntries r start 0 (timersBeforeDone sel)).
Proof.
  intros Hlen. unfold slowLog. destruct multiple.
  - apply slowLog_from_entries.
    + unfold Int64.in_range, Int64.min_signed, Int64.max_signed. lia.
    + pose proof (timersBeforeDone_length sel). lia.
  - destruct sel as [ | [ | lr since] sel].
    + reflexivity.
    + reflexivity.
    + simpl. rewrite slowLog_from_once by (cbv; discriminate). reflexivity.
Qed.

(** X7. When the poller returns: with repetition only by receiving from
    [doneChan], however many timers fire; without repetition as soon as its
    one [select] has completed, either way. *)
Theorem slowLog_returns_on_cancellation (cutoff : Duration)
  (multiple : bool) (r : Request) (start : Time) (sel : list Selected) :
  snd (slowLog cutoff multiple r start sel) =
  if multiple then existsb isRecvDone sel
  else match sel with [] => false | _ :: _ => true end.
Proof.
  unfold slowLog. destruct multiple.
  - apply slowLog_from_returned.
  - destruct sel as [ | [ | lr since] sel].
    + reflexivity.
    + reflexivity.
    + simpl. rewrite slowLog_from_once by (cbv; discriminate). reflexivity.
Qed.

(** X8. Once the poller has returned, by cancellation or for want of
    repetition, nothing that could be observed afterwards adds an
    emission. *)
Theorem slowLog_silent_after_return (cutoff : Duration) (multiple : bool)
  (r : Request) (start : Time) (a b : list Selected) :
  snd (slowLog cutoff multiple r start a) = true ->
  slowLog cutoff multiple r start (a ++ b) = slowLog cutoff multiple r start a.
Proof.
  unfold slowLog. apply slowLog_from_after_return.
Qed.

(** X9. With an observer whose cutoff for the request is positive,
    [ServeHTTP] starts the poller with that cutoff, the observer's choice
    of repetition, the request and the start time, and closes [doneChan]
    when the handler stops, whether it returned or panicked. *)
Theorem poller_started_and_cancelled
  (nxt : Request -> Handler) (observer : RequestLogger) (w0 : Wr)
  (r : Request) (now : Time) (since : Duration) (sl : SlowRequestLogger) :
  implSlowRequestLogger observer = Some sl ->
  0 < Cutoff sl r ->
  let s := ServeHTTP (LoggerMiddleware nxt observer) w0 r now since in
  spawned s =
  Some {| go_cutoff := Cutoff sl r; go_multiple := MultipleLogs sl r;
          go_r := r; go_start := now |} /\
  doneClosed s = true.
Proof.
  intros Hsl Hcut. cbv zeta.
  rewrite ServeHTTP_doneClosed, ServeHTTP_spawned. simpl. rewrite Hsl.
  destruct (Z.ltb_spec 0 (Cutoff sl r)); [auto | lia].
Qed.

(** X10. The slow emissions of a request whose observer gives a positive
    cutoff are those of the timers its poller sees fire before it receives
    from [doneChan]: all of them, numbered from 0, when the observer asks
    for repetition, the first one otherwise. *)
Theorem slow_emissions_of_a_request
  (nxt : Request -> Handler) (observer : RequestLogger) (w0 : Wr)
  (r : Request) (now : Time) (since : Duration) (sl : SlowRequestLogger)
  (sel : list Selected) :
  implSlowRequestLogger observer = Some sl ->
  0 < Cutoff sl r ->
  Z.of_nat (length sel) <= Int64.max_signed ->
  let s := ServeHTTP (LoggerMiddleware nxt observer) w0 r now since in
  slowEmissions s sel =
  if MultipleLogs sl r then slowEntries r now 0 (timersBeforeDone sel)
  else firstn 1 (slowEntries r now 0 (timersBeforeDone sel)).
Proof.
  intros Hsl Hcut Hlen. cbv zeta.
  unfold slowEmissions. rewrite ServeHTTP_spawned. simpl. rewrite Hsl.
  destruct (Z.ltb_spec 0 (Cutoff sl r)); [ | lia].
  unfold run, slowLog. simpl.
  destruct (MultipleLogs sl r).
  - apply slowLog_from_entries.
    + unfold Int64.in_range, Int64.min_signed, Int64.max_signed. lia.
    + pose proof (timersBeforeDone_length sel). lia.
  - destruct sel as [ | [ | lr since'] sel].
    + reflexivity.
    + reflexivity.
    + simpl. rewrite slowLog_from_once by (cbv; discriminate). reflexivity.
Qed.

(** X11. Every emission made for a request, terminal or slow, carries
    that request and the start time read when [ServeHTTP] was entered. *)
Theorem emissions_carry_request_and_start (lh : logHandler) (w0 : Wr)
  (r : Request) (now : Time) (since : Duration) (sel : list Selected)
  (e : Emission) :
  let s := ServeHTTP lh w0 r now since in
  In e (emitted s ++ slowEmissions s sel) ->
  R (entry e) = r /\ Start (entry e) = now.
Proof.
  intros s Hin. subst s. apply in_app_or in Hin. destruct Hin as [Hin | Hin].
  - rewrite (ServeHTTP_entry lh w0 r now since e Hin). split; reflexivity.
  - unfold slowEmissions in Hin. rewrite ServeHTTP_spawned in Hin.
    destruct (slowLogger lh) as [sl | ]; [ | destruct Hin].
    destruct (0 <? Cutoff sl r); [ | destruct Hin].
    unfold run, slowLog in Hin. simpl in Hin.
    exact (slowLog_from_R_Start _ r now sel 0 e Hin).
Qed.

(** ** Requests in sequence, and [StdLibLogger] *)

Lemma count_app (p : Emission -> bool) (a b : list Emission) :
  count p (a ++ b) = (count p a + count p b)%nat.
Proof. unfold count. rewrite filter_app, length_app. reflexivity. Qed.

Lemma ServeHTTP_one_terminal (lh : logHandler) (w0 : Wr) (r : Request)
  (now : Time) (since : Duration) :
  let s := ServeHTTP lh w0 r now since in
  (count isLogRequest (emitted s) + count isLogPanic (emitted s) = 1)%nat /\
  count isLogSlowRequest (emitted s) = 0%nat.
Proof.
  cbv zeta. rewrite ServeHTTP_emitted. cbv zeta.
  destruct (panicLogger lh) as [pl | ];
    destruct (snd (serve (next lh r) (newLoggedRequest w0))) as [err | ];
    simpl; auto.
Qed.

(** X12. A caller serving requests one after the other on the same stream
    gets one terminal event for each request it serves: as many as there
    are requests when no panic leaves [ServeHTTP], which is always so when
    the observer implements [PanicLogger]; never more; and no slow event
    from the handling goroutine. *)
Theorem serveAll_one_terminal_event_each (lh : logHandler)
  (rs : list (Request * Time * Duration)) (w0 : Wr) :
  let es := fst (fst (serveAll lh w0 rs)) in
  let terminal := (count isLogRequest es + count isLogPanic es)%nat in
  (terminal <= length rs)%nat /\
  (snd (serveAll lh w0 rs) = None -> terminal = length rs) /\
  (panicLogger lh <> None -> snd (serveAll lh w0 rs) = None) /\
  count isLogSlowRequest es = 0%nat.
Proof.
  cbv zeta. revert w0.
  induction rs as [ | [[r now] since] rs IH]; intros w0.
  - unfold count. simpl. split; [lia | ]. repeat split.
  - simpl.
    pose proof (ServeHTTP_one_terminal lh w0 r now since) as [Hone Hslow].
    pose proof (ServeHTTP_propagated lh w0 r now since) as Hprop.
    cbv zeta in Hone, Hslow.
    destruct (propagated (ServeHTTP lh w0 r now since)) as [v | ] eqn:Hp.
    + simpl. repeat split.
      * lia.
      * discriminate.
      * intros Hpl. destruct (panicLogger lh); [discriminate | ].
        contradiction Hpl. reflexivity.
      * exact Hslow.
    + specialize (IH (w (response (ServeHTTP lh w0 r now since)))).
      destruct (serveAll lh (w (response (ServeHTTP lh w0 r now since))) rs)
        as [[es w'] p].
      simpl in IH |- *. destruct IH as [Hle [Hall [Hpl Hnoslow]]].
      rewrite !count_app. repeat split.
      * lia.
      * intros Hnone. specialize (Hall Hnone). lia.
      * exact Hpl.
      * rewrite Hslow, Hnoslow. reflexivity.
Qed.

(** X13. Behind [StdLibLogger] every request has a poller, started with a
    cutoff of one second and with repetition and cancelled when the handler
    stops, and no panic of the handler leaves [ServeHTTP]: it is logged by
    one [LogPanic] in place of the [LogRequest]. *)
Theorem StdLibLogger_polls_and_recovers (nxt : Request -> Handler)
  (w0 : Wr) (r : Request) (now : Time) (since : Duration) :
  let s := ServeHTTP (LoggerMiddleware nxt StdLibLogger) w0 r now since in
  spawned s =
  Some {| go_cutoff := Second; go_multiple := true;
          go_r := r; go_start := now |} /\
  doneClosed s = true /\
  propagated s = None /\
  emitted s =
  match snd (serve (nxt r) (newLoggedRequest w0)) with
  | Some err => [LogPanic (logDataOf r now since (response s)) err]
  | None => [LogRequest (logDataOf r now since (response s))]
  end.
Proof.
  cbv zeta.
  rewrite ServeHTTP_doneClosed, ServeHTTP_spawned, ServeHTTP_propagated,
    ServeHTTP_emitted.
  cbv zeta. simpl. repeat split.
Qed.

(** ** The interceptor while the handler runs *)

Lemma states_head (h : Handler) (lr : loggedRequest) : In lr (states h lr).
Proof. destruct h; left; reflexivity. Qed.

Lemma states_bytesWritten (h : Handler) :
  io_Writer_contract ->
  forall lr0 : loggedRequest,
    Int64.in_range (bytesWritten lr0) ->
    bytesWritten lr0 + lenSum (fst (fst (serve h lr0))) <= Int64.max_signed ->
    forall lr : loggedRequest,
      In lr (states h lr0) ->
      bytesWritten lr0 <= bytesWritten lr <=
      bytesWritten (snd (fst (serve h lr0))).
Proof.
  intros Hcontract.
  induction h as [ | v | code k IH | k IH | data k IH ];
    intros lr0 Hr Hfit lr Hin.
  - simpl in *. destruct Hin as [<- | []]. lia.
  - simpl in *. destruct Hin as [<- | []]. lia.
  - specialize (IH (WriteHeader code lr0)).
    rewrite WriteHeader_bytesWritten in IH.
    cbn [states] in Hin. simpl in Hfit |- *.
    destruct (serve k (WriteHeader code lr0)) as [[cs lr'] p].
    simpl in *. specialize (IH Hr Hfit).
    destruct Hin as [<- | Hin].
    + specialize (IH (WriteHeader code lr0) (states_head _ _)).
      rewrite WriteHeader_bytesWritten in IH. lia.
    + exact (IH lr Hin).
  - specialize (IH (Header lr0) lr0).
    cbn [states] in Hin. simpl in Hfit |- *.
    destruct (serve (k (Header lr0)) lr0) as [[cs lr'] p].
    simpl in *. specialize (IH Hr Hfit).
    destruct Hin as [<- | Hin].
    + apply IH. apply states_head.
    + exact (IH lr Hin).
  - pose proof (Write_state data lr0) as Hst.
    pose proof (Write_result data lr0) as Hres.
    pose proof (Hcontract data (w lr0)) as Hn. rewrite <- Hres in Hn.
    cbn [states] in Hin. simpl in Hfit |- *.
    destruct (Write data lr0) as [[written err] lr1].
    simpl in Hst, Hn.
    assert (Hb1 : bytesWritten lr1 = bytesWritten lr0 + written).
    { rewrite Hst. simpl. rewrite <- Hres. simpl.
      pose proof (lenSum_nonneg (fst (fst (serve (k written err) lr1)))).
      destruct (serve (k written err) lr1) as [[cs lr'] p]. simpl in *.
      apply Int64_wrap_in_range. unfold Int64.in_range in *. lia. }
    specialize (IH written err lr1).
    pose proof (lenSum_nonneg (fst (fst (serve (k written err) lr1)))) as Hpos.
    destruct (serve (k written err) lr1) as [[cs lr'] p]. simpl in *.
    assert (Hr1 : Int64.in_range (bytesWritten lr1)).
    { unfold Int64.in_range in *. lia. }
    specialize (IH Hr1 ltac:(lia)).
    destruct Hin as [<- | Hin].
    + specialize (IH lr1 (states_head _ _)). lia.
    + specialize (IH lr Hin). lia.
Qed.

Lemma states_status (h : Handler) :
  forall lr0 lr : loggedRequest,
    In lr (states h lr0) ->
    wroteHeader lr = true ->
    status lr = status (snd (fst (serve h lr0))).
Proof.
  induction h as [ | v | code k IH | k IH | data k IH ];
    intros lr0 lr Hin Hw.
  - simpl in *. destruct Hin as [<- | []]. reflexivity.
  - simpl in *. destruct Hin as [<- | []]. reflexivity.
  - cbn [states] in Hin. destruct Hin as [<- | Hin].
    + rewrite serve_status, Hw. reflexivity.
    + specialize (IH (WriteHeader code lr0) lr Hin Hw). simpl.
      destruct (serve k (WriteHeader code lr0)) as [[cs lr'] p]. exact IH.
  - cbn [states] in Hin. destruct Hin as [<- | Hin].
    + rewrite serve_status, Hw. reflexivity.
    + specialize (IH (Header lr0) lr0 lr Hin Hw). simpl.
      destruct (serve (k (Header lr0)) lr0) as [[cs lr'] p]. exact IH.
  - cbn [states] in Hin. destruct Hin as [<- | Hin].
    + rewrite serve_status, Hw. reflexivity.
    + simpl. destruct (Write data lr0) as [[written err] lr1].
      specialize (IH written err lr1 lr Hin Hw).
      destruct (serve (k written err) lr1) as [[cs lr'] p]. exact IH.
Qed.

(** X15. While a handler runs, with a stream that honours [io.Writer] and
    writes that fit an [int64], the counter of the interceptor only grows
    and is never above what it is when the handler stops; and a status,
    once recorded, is the one found when the handler stops. *)
Theorem interceptor_during_the_handler (h : Handler) (w0 : Wr)
  (lr : loggedRequest) :
  io_Writer_contract ->
  lenSum (fst (fst (serve h (newLoggedRequest w0)))) <= Int64.max_signed ->
  In lr (states h (newLoggedRequest w0)) ->
  let final := snd (fst (serve h (newLoggedRequest w0))) in
  0 <= bytesWritten lr <= bytesWritten final /\
  (wroteHeader lr = true -> status lr = status final).
Proof.
  intros Hcontract Hfit Hin. cbv zeta. split.
  - apply (states_bytesWritten h Hcontract (newLoggedRequest w0)).
    + simpl. unfold Int64.in_range, Int64.min_signed, Int64.max_signed. lia.
    + simpl. exact Hfit.
    + exact Hin.
  - apply states_status. exact Hin.
Qed.

Lemma states_unset (h : Handler) :
  forall lr0 lr : loggedRequest,
    (wroteHeader lr0 = false -> status lr0 = 0) ->
    In lr (states h lr0) ->
    wroteHeader lr = false -> status lr = 0.
Proof.
  induction h as [ | v | code k IH | k IH | data k IH ];
    intros lr0 lr H0 Hin Hw.
  - simpl in Hin. destruct Hin as [<- | []]. auto.
  - simpl in Hin. destruct Hin as [<- | []]. auto.
  - cbn [states] in Hin. destruct Hin as [<- | Hin]; [auto | ].
    apply (IH (WriteHeader code lr0) lr); auto.
    rewrite WriteHeader_wroteHeader. discriminate.
  - cbn [states] in Hin. destruct Hin as [<- | Hin]; [auto | ].
    apply (IH (Header lr0) lr0 lr); auto.
  - cbn [states] in Hin. destruct Hin as [<- | Hin]; [auto | ].
    pose proof (Write_state data lr0) as Hst.
    destruct (Write data lr0) as [[written err] lr1]. simpl in Hst.
    apply (IH written err lr1 lr); auto.
    rewrite Hst. simpl. exact H0.
Qed.

Lemma slowLog_from_snapshot (multiple : bool) (r : Request) (start : Time)
  (sel : list Selected) :
  forall (i : Z) (e : Emission),
    In e (fst (slowLog_from multiple r start i sel)) ->
    exists (lr : loggedRequest) (since : Duration),
      In (TimerFired lr since) sel /\
      Status (entry e) = status lr /\
      BytesWritten (entry e) = bytesWritten lr.
Proof.
  induction sel as [ | [ | lr since] sel IH]; intros i e; simpl.
  - destruct (multiple || (i =? 0)); intros [].
  - destruct (multiple || (i =? 0)); intros [].
  - destruct (multiple || (i =? 0)); [ | intros []].
    specialize (IH (Int64.wrap (i + 1)) e).
    destruct (slowLog_from multiple r start (Int64.wrap (i + 1)) sel)
      as [es returned].
    simpl in *. intros [<- | Hin].
    + exists lr, since. auto.
    + destruct (IH Hin) as [lr' [since' [Hsel Heq]]].
      exists lr', since'. auto.
Qed.

(** X16. A slow entry never shows more than the terminal entry of its
    request: when each snapshot of the poller is a state the interceptor
    went through during the handler, with a stream that honours
    [io.Writer] and writes that fit an [int64], the bytes of a slow entry
    are at most those of the terminal entry, and its status is the
    terminal one or still 0. *)
Theorem slow_entry_within_terminal_entry (lh : logHandler) (w0 : Wr)
  (r : Request) (now : Time) (since : Duration) (sel : list Selected)
  (e t : Emission) :
  io_Writer_contract ->
  let s := ServeHTTP lh w0 r now since in
  lenSum (calls s) <= Int64.max_signed ->
  (forall (lr : loggedRequest) (since' : Duration),
      In (TimerFired lr since') sel ->
      In lr (states (next lh r) (newLoggedRequest w0))) ->
  In e (slowEmissions s sel) ->
  In t (emitted s) ->
  0 <= BytesWritten (entry e) <= BytesWritten (entry t) /\
  (Status (entry e) = 0 \/ Status (entry e) = Status (entry t)).
Proof.
  intros Hcontract s Hfit Hstates He Ht. subst s.
  rewrite (ServeHTTP_entry lh w0 r now since t Ht). simpl.
  rewrite ServeHTTP_response. rewrite ServeHTTP_calls in Hfit.
  unfold slowEmissions in He. rewrite ServeHTTP_spawned in He.
  destruct (slowLogger lh) as [sl | ]; [ | destruct He].
  destruct (0 <? Cutoff sl r); [ | destruct He].
  unfold run, slowLog in He. simpl in He.
  destruct (slowLog_from_snapshot _ r now sel 0 e He)
    as [lr [since' [Hsel [Hst Hb]]]].
  specialize (Hstates lr since' Hsel). rewrite Hst, Hb. split.
  - apply (states_bytesWritten (next lh r) Hcontract (newLoggedRequest w0)).
    + simpl. unfold Int64.in_range, Int64.min_signed, Int64.max_signed. lia.
    + simpl. exact Hfit.
    + exact Hstates.
  - destruct (wroteHeader lr) eqn:Hw.
    + right. apply states_status; assumption.
    + left. apply (states_unset (next lh r) (newLoggedRequest w0) lr);
        auto.
Qed.

End Middleware.

Arguments LogData : clear implicits.
Arguments loggedRequest : clear implicits.
Arguments Emission : clear implicits.
Arguments Selected : clear implicits.
Arguments Served : clear implicits.
Arguments LogRequest {Request any Wr} ld.
Arguments LogPanic {Request any Wr} ld err.
Arguments LogSlowRequest {Request any Wr} ld i.
Arguments Return {any}.
Arguments Panic {any} v.
Arguments CallWriteHeader {any} code k.
Arguments CallHeader {any} k.
Arguments CallWrite {any} data k.
Arguments serve {any Wr RW} h lr.
Arguments slowLog_from {Request any Wr} multiple r start i sel.
Arguments slowLog {Request any Wr} cutoff multiple r start sel.
Arguments run {Request any Wr} g sel.
Arguments recover {any} panicking.
Arguments completion {Request any Wr} lh doneChan r start since lr panicking.
Arguments ServeHTTP {Request any Wr RW} lh w0 r now since.
Arguments LoggerMiddleware {Request any} next logger.
Arguments slowEmissions {Request any Wr} s sel.
Arguments isLogRequest {Request any Wr} e.
Arguments isLogPanic {Request any Wr} e.
Arguments isLogSlowRequest {Request any Wr} e.
Arguments count {Request any Wr} p es.
Arguments entry {Request any Wr} e.
Arguments logDataOf {Request Wr} r start since lr.
Arguments StdLibLogger {Request}.
Arguments mockLogger {Request} cutoff multiple.
Arguments nullLogger {Request}.
Arguments emptyHandler {Request any} _.
Arguments mockHandler {Request any} status _.
Arguments panicHandler {Request any} status boo _.
Arguments slowHandler {Request any} status _.
Arguments Build_LogData {Request Wr} R W Status Start TotalTime BytesWritten.
Arguments R {Request Wr} l.
Arguments W {Request Wr} l.
Arguments Status {Request Wr} l.
Arguments Start {Request Wr} l.
Arguments TotalTime {Request Wr} l.
Arguments BytesWritten {Request Wr} l.
Arguments spawned {Request any Wr} s.
Arguments calls {Request any Wr} s.
Arguments response {Request any Wr} s.
Arguments doneClosed {Request any Wr} s.
Arguments emitted {Request any Wr} s.
Arguments propagated {Request any Wr} s.
Arguments implPanicLogger {Request} r.
Arguments implSlowRequestLogger {Request} r.
Arguments Cutoff {Request} s _.
Arguments MultipleLogs {Request} s _.
Arguments panicLogger {Request any} l.
Arguments slowLogger {Request any} l.
Arguments Build_Goroutine {Request} go_cutoff go_multiple go_r go_start.

(** * The tests of [logger_test.go] and other runs *)

Local Open Scope string_scope.

(** [TestLogsRequest]: one logged request, status 999, 16 bytes. *)
Example TestLogsRequest :
  emitted
    (ServeHTTP (any := string)
       (LoggerMiddleware (mockHandler 999) (mockLogger 0 false))
       NewRecorder testRequest 0 5) =
  [LogRequest
     {| R := testRequest;
        W := {| Code := 999; Body := zeros 16; recordedHeader := true |};
        Status := 999; Start := 0; TotalTime := 5; BytesWritten := 16 |}].
Proof. reflexivity. Qed.

(** [TestLogsPanic]: one logged panic, status 999, 16 bytes, and
    [ServeHTTP] returns. *)
Example TestLogsPanic :
  let s := ServeHTTP (LoggerMiddleware (panicHandler 999 "boo!")
                        (mockLogger 0 false))
             NewRecorder testRequest 0 5 in
  emitted s =
  [LogPanic
     {| R := testRequest;
        W := {| Code := 999; Body := zeros 16; recordedHeader := true |};
        Status := 999; Start := 0; TotalTime := 5; BytesWritten := 16 |}
     "boo!"] /\
  propagated s = None.
Proof. split; reflexivity. Qed.

(** [TestLogsSlow], for timers firing three times before [doneChan] is
    seen closed: the third slow entry shows the status and the first write
    only. *)
Example TestLogsSlow :
  let lh := LoggerMiddleware (any := string) (slowHandler 999)
              (mockLogger 5000000 true) in
  let s := ServeHTTP lh NewRecorder testRequest 0 17000000 in
  let lr8 := snd (Write (zeros 8) (WriteHeader 999 (newLoggedRequest NewRecorder))) in
  let seen := [TimerFired lr8 5000000; TimerFired lr8 10000000;
               TimerFired lr8 15000000; RecvDone] in
  length (slowEmissions s seen) = 3%nat /\
  map (fun e => (Status (entry e), BytesWritten (entry e))) (slowEmissions s seen)
  = [(999, 8); (999, 8); (999, 8)] /\
  map (fun e => BytesWritten (entry e)) (emitted s) = [16].
Proof. repeat split. Qed.

(** ** Runs of the guarded statements *)

(** The panic of [panicHandler] passes an observer without [PanicLogger]. *)
Lemma panic_without_PanicLogger_propagates_witness :
  let s := ServeHTTP (LoggerMiddleware (panicHandler 999 "boo!") nullLogger)
             NewRecorder testRequest 0 5 in
  propagated s = Some "boo!" /\
  emitted s = [LogRequest (logDataOf testRequest 0 5 (response s))] /\
  count isLogPanic (emitted s) = 0%nat.
Proof.
  apply (panic_without_PanicLogger_propagates HttpRequest string
           (panicHandler 999 "boo!") nullLogger NewRecorder testRequest 0 5
           "boo!"); reflexivity.
Defined.

(** The panic of [panicHandler] is recovered for [mockLogger]. *)
Lemma panic_with_PanicLogger_recovered_witness :
  let s := ServeHTTP (LoggerMiddleware (panicHandler 999 "boo!")
                        (mockLogger 0 false))
             NewRecorder testRequest 0 5 in
  emitted s = [LogPanic (logDataOf testRequest 0 5 (response s)) "boo!"] /\
  count isLogPanic (emitted s) = 1%nat /\
  count isLogRequest (emitted s) = 0%nat /\
  propagated s = None.
Proof.
  apply (panic_with_PanicLogger_recovered HttpRequest string
           (panicHandler 999 "boo!") (mockLogger 0 false) NewRecorder
           testRequest 0 5 LogPanicImpl "boo!"); reflexivity.
Defined.

(** The 16 bytes of [mockHandler] on a recorder. *)
Lemma Write_adds_the_returned_count_witness :
  bytesWritten (snd (Write (zeros 16) (newLoggedRequest NewRecorder))) =
  0 + 16 /\
  BytesWritten
    (entry (LogRequest (any := string)
              (logDataOf testRequest 0 5
                 (response (ServeHTTP (any := string)
                              (LoggerMiddleware (mockHandler 999) nullLogger)
                              NewRecorder testRequest 0 5))))) = 16.
Proof.
  split.
  - refine (proj1 (Write_adds_the_returned_count HttpRequest string)
              (zeros 16) (newLoggedRequest NewRecorder) _).
    vm_compute. split; discriminate.
  - refine (proj2 (Write_adds_the_returned_count HttpRequest string)
              (LoggerMiddleware (mockHandler 999) nullLogger)
              NewRecorder testRequest 0 5 _ _ _).
    + vm_compute. split; discriminate.
    + simpl. left. reflexivity.
Defined.

(** A recorder honours the contract of [io.Writer]. *)
Lemma ResponseRecorder_io_Writer_contract :
  io_Writer_contract (Wr := ResponseRecorder).
Proof. intros data rec. simpl. lia. Defined.


(** Two calls in a row, and the status of the entry [mockHandler] leads
    to. *)
Lemma WriteHeader_first_call_wins_witness :
  let lr := WriteHeader 999 (newLoggedRequest NewRecorder) in
  let s := ServeHTTP (any := string)
             (LoggerMiddleware (mockHandler 999) nullLogger)
             NewRecorder testRequest 0 5 in
  WriteHeader 200 lr = lr /\
  Status (entry (LogRequest (any := string)
                   (logDataOf testRequest 0 5 (response s)))) = 999.
Proof.
  pose proof (WriteHeader_first_call_wins HttpRequest string
                (Wr := ResponseRecorder))
    as [_ [Hlater [_ [_ [_ Hentry]]]]].
  split.
  - apply Hlater. reflexivity.
  - refine (Hentry (LoggerMiddleware (mockHandler 999) nullLogger)
              NewRecorder testRequest 0 5 _ _).
    simpl. left. reflexivity.
Defined.

(** [nullLogger] has no [SlowRequestLogger]; [mockLogger] with its zero
    cutoff has one that asks for no poller. *)
Lemma no_poller_without_positive_cutoff_witness :
  let seen := [TimerFired (newLoggedRequest NewRecorder) 1; RecvDone] in
  let s1 := ServeHTTP (any := string)
              (LoggerMiddleware (mockHandler 999) nullLogger)
              NewRecorder testRequest 0 5 in
  let s2 := ServeHTTP (any := string)
              (LoggerMiddleware (mockHandler 999) (mockLogger 0 true))
              NewRecorder testRequest 0 5 in
  (spawned s1 = None /\ doneClosed s1 = false /\ slowEmissions s1 seen = [] /\
   count isLogSlowRequest (emitted s1) = 0%nat) /\
  (spawned s2 = None /\ doneClosed s2 = false /\ slowEmissions s2 seen = [] /\
   count isLogSlowRequest (emitted s2) = 0%nat).
Proof.
  split.
  - apply (no_poller_without_positive_cutoff HttpRequest string
             (mockHandler 999) nullLogger NewRecorder testRequest 0 5).
    left. reflexivity.
  - apply (no_poller_without_positive_cutoff HttpRequest string
             (mockHandler 999) (mockLogger 0 true) NewRecorder testRequest
             0 5).
    right. eexists. split; [reflexivity | ]. simpl. lia.
Defined.

(** ** Runs that the statements of the specification do not survive *)

(** C2, as stated, fails: with [nullLogger], which has no [PanicLogger],
    the panic of [panicHandler] does reach the caller, but the request is
    not left without emission, a [LogRequest] is made for it. *)
Lemma panic_without_PanicLogger_is_logged :
  let observer := nullLogger in
  let s := ServeHTTP (LoggerMiddleware (panicHandler 999 "boo!") observer)
             NewRecorder testRequest 0 5 in
  implPanicLogger observer = None /\
  snd (serve (panicHandler 999 "boo!" testRequest)
         (newLoggedRequest NewRecorder)) = Some "boo!" /\
  propagated s = Some "boo!" /\
  emitted s =
  [LogRequest
     {| R := testRequest;
        W := {| Code := 999; Body := zeros 16; recordedHeader := true |};
        Status := 999; Start := 0; TotalTime := 5; BytesWritten := 16 |}] /\
  ~ (count isLogRequest (emitted s) = 0%nat) /\
  ~ (emitted s = []).
Proof.
  repeat split; simpl; discriminate.
Qed.

(** C3, as stated, fails: on a stream that allows no body, a [Write] of 16
    bytes returns the count 0 and leaves the counter where it was, and the
    terminal entry shows 0 bytes for a handler that wrote 16. *)
Lemma Write_adds_less_than_len :
  let lr := WriteHeader 304 (newLoggedRequest {| sentStatus := None |}) in
  let s := ServeHTTP (any := string)
             (LoggerMiddleware (mockHandler 304) nullLogger)
             {| sentStatus := None |} testRequest 0 5 in
  fst (Write (zeros 16) lr) = (0, Some ErrBodyNotAllowed) /\
  bytesWritten (snd (Write (zeros 16) lr)) = 0 /\
  ~ (bytesWritten (snd (Write (zeros 16) lr)) =
     bytesWritten lr + Z.of_nat (length (zeros 16))) /\
  lenSum (calls s) = 16 /\
  map (fun e => BytesWritten (entry e)) (emitted s) = [0] /\
  ~ (forall e, In e (emitted s) -> BytesWritten (entry e) = lenSum (calls s)).
Proof.
  cbv zeta. repeat split; try (simpl; discriminate).
  intros Hall.
  specialize (Hall _ (or_introl eq_refl)). simpl in Hall. discriminate.
Qed.


(** Two timers firing and no repetition: one slow emission, of index 0,
    and the goroutine has returned. *)
Lemma slowLog_once_emits_at_most_once_witness :
  let lr := newLoggedRequest NewRecorder in
  let out := slowLog (any := string) Second false testRequest 0
               [TimerFired lr 1; TimerFired lr 2] in
  (length (fst out) <= 1)%nat /\
  out = ([LogSlowRequest (logDataOf testRequest 0 1 lr) 0], true).
Proof.
  split.
  - exact (proj1 (slowLog_once_emits_at_most_once HttpRequest string
                    Second testRequest 0
                    [TimerFired (newLoggedRequest NewRecorder) 1;
                     TimerFired (newLoggedRequest NewRecorder) 2])).
  - exact (proj2 (proj2 (proj2
             (slowLog_once_emits_at_most_once HttpRequest string
                Second testRequest 0 [])))
             (newLoggedRequest NewRecorder) 1
             [TimerFired (newLoggedRequest NewRecorder) 2]).
Defined.

Arguments direct {any Wr RW} h s.
Arguments replay {Wr RW} cs s.
Arguments timersBeforeDone {Wr} sel.
Arguments slowEntries {Request any Wr} r start i ts.
Arguments isRecvDone {Wr} o.
Arguments serveAll {Request any Wr RW} lh w0 rs.
Arguments loggedRequest_ResponseWriter {Wr RW}.

(** * An interceptor on an interceptor *)

(** Two interceptors, one the stream of the other, that agree on status,
    header flag and count still agree after any handler has used the outer
    one. *)
Lemma serve_stacked {any Wr : Type} {RW : ResponseWriter Wr}
  (h : Handler any) :
  forall outer : loggedRequest (loggedRequest Wr),
    status outer = status (w outer) ->
    wroteHeader outer = wroteHeader (w outer) ->
    bytesWritten outer = bytesWritten (w outer) ->
    let outer' :=
      snd (fst (serve (RW := loggedRequest_ResponseWriter) h outer)) in
    status outer' = status (w outer') /\
    wroteHeader outer' = wroteHeader (w outer') /\
    bytesWritten outer' = bytesWritten (w outer').
Proof.
  induction h as [ | v | code k IH | k IH | data k IH ];
    intros outer Hs Hw Hb; cbv zeta; simpl.
  - auto.
  - auto.
  - specialize (IH (WriteHeader (RW := loggedRequest_ResponseWriter)
                      code outer)).
    cbv zeta in IH.
    destruct (serve k _) as [[cs outer'] p]. simpl in *.
    destruct (wroteHeader outer) eqn:Hwo.
    + rewrite (WriteHeader_later (RW := loggedRequest_ResponseWriter)
                 code outer Hwo) in IH.
      apply IH; auto. rewrite Hwo. exact Hw.
    + rewrite (WriteHeader_first (RW := loggedRequest_ResponseWriter)
                 code outer Hwo) in IH.
      simpl in IH.
      rewrite (WriteHeader_first code (w outer) (eq_sym Hw)) in IH.
      simpl in IH. apply IH; auto.
  - specialize (IH (Header (RW := loggedRequest_ResponseWriter) outer) outer
                  Hs Hw Hb).
    cbv zeta in IH.
    destruct (serve (k _) outer) as [[cs outer'] p]. simpl in *. exact IH.
  - destruct (Write data (w outer)) as [[written err] inner'] eqn:EW.
    pose proof (Write_state data (w outer)) as Hst. rewrite EW in Hst.
    pose proof (Write_result data (w outer)) as Hres. rewrite EW in Hres.
    simpl in Hst, Hres.
    assert (Houter :
      Write (RW := loggedRequest_ResponseWriter) data outer =
      ((written, err),
       {| w := inner'; status := status outer;
          wroteHeader := wroteHeader outer;
          bytesWritten := Int64.wrap (bytesWritten outer + written) |})).
    { unfold Write at 1. simpl. rewrite EW. reflexivity. }
    rewrite Houter.
    match goal with
    | |- context [serve (k written err) ?l] => specialize (IH written err l)
    end.
    cbv zeta in IH.
    destruct (serve (k written err) _) as [[cs outer'] p]. simpl in IH |- *.
    apply IH; rewrite Hst; simpl; try rewrite <- Hres; simpl; congruence.
Qed.

(** X14. When an interceptor is the stream of another, as when the
    middleware wraps a handler already behind the middleware, both record
    the same status and the same count of bytes, whatever the handler
    does. *)
Theorem stacked_interceptors_agree {any Wr : Type} {RW : ResponseWriter Wr}
  (h : Handler any) (w0 : Wr) :
  let outer :=
    snd (fst (serve (RW := loggedRequest_ResponseWriter) h
                (newLoggedRequest (newLoggedRequest w0)))) in
  currentData outer = currentData (w outer).
Proof.
  cbv zeta.
  destruct (serve_stacked h (newLoggedRequest (newLoggedRequest w0))
              eq_refl eq_refl eq_refl) as [Hs [_ Hb]].
  unfold currentData. rewrite Hs, Hb. reflexivity.
Qed.

(** * Runs of the further properties *)

(** [mockHandler] calls [WriteHeader] once: behind the middleware the
    recorder ends as it would without it. *)
Lemma interface_calls_pass_through_witness :
  let s := ServeHTTP (any := string)
             (LoggerMiddleware (mockHandler 999) nullLogger)
             NewRecorder testRequest 0 5 in
  calls s = [CalledWriteHeader 999; CalledWrite (zeros 16) 16 None] /\
  w (response s) =
  {| Code := 999; Body := zeros 16; recordedHeader := true |} /\
  propagated s = None.
Proof.
  refine (interface_calls_pass_through HttpRequest string
            (mockHandler 999) nullLogger NewRecorder testRequest 0 5 _).
  simpl. lia.
Defined.

(** The 16 bytes of [mockHandler] on a recorder, within what it wrote. *)
Lemma BytesWritten_within_what_was_written_witness :
  let s := ServeHTTP (any := string)
             (LoggerMiddleware (mockHandler 999) nullLogger)
             NewRecorder testRequest 0 5 in
  0 <= BytesWritten
         (entry (LogRequest (any := string)
                   (logDataOf testRequest 0 5 (response s))))
    <= lenSum (calls s).
Proof.
  refine (BytesWritten_within_what_was_written HttpRequest string
            (LoggerMiddleware (mockHandler 999) nullLogger)
            NewRecorder testRequest 0 5 _
            ResponseRecorder_io_Writer_contract _ _).
  - vm_compute. discriminate.
  - simpl. left. reflexivity.
Defined.

(** A recorder accepts the two slices of [slowHandler] whole. *)
Lemma BytesWritten_is_total_length_of_whole_writes_witness :
  let s := ServeHTTP (any := string)
             (LoggerMiddleware (slowHandler 999) nullLogger)
             NewRecorder testRequest 0 5 in
  BytesWritten
    (entry (LogRequest (any := string)
              (logDataOf testRequest 0 5 (response s)))) = 16.
Proof.
  refine (BytesWritten_is_total_length_of_whole_writes HttpRequest string
            (LoggerMiddleware (slowHandler 999) nullLogger)
            NewRecorder testRequest 0 5 _ _ _ _).
  - simpl. repeat constructor.
  - vm_compute. discriminate.
  - simpl. left. reflexivity.
Defined.

(** On a stream that allows no body the entry shows 0 bytes, the sum of
    the counts returned. *)
Lemma BytesWritten_wraps_around_witness :
  let s := ServeHTTP (any := string)
             (LoggerMiddleware (mockHandler 304) nullLogger)
             {| sentStatus := None |} testRequest 0 5 in
  let e := LogRequest (any := string)
             (logDataOf testRequest 0 5 (response s)) in
  Int64.in_range (BytesWritten (entry e)) /\
  (BytesWritten (entry e) - writtenSum (calls s)) mod 2 ^ 64 = 0.
Proof.
  refine (BytesWritten_wraps_around HttpRequest string
            (LoggerMiddleware (mockHandler 304) nullLogger)
            {| sentStatus := None |} testRequest 0 5 _ _).
  simpl. left. reflexivity.
Defined.

(** Two timers, cancellation, and a timer that would have fired later:
    two slow events, numbered 0 and 1. *)
Lemma slowLog_emits_one_entry_per_timer_witness :
  let lr := newLoggedRequest NewRecorder in
  fst (slowLog (any := string) Second true testRequest 0
         [TimerFired lr 1; TimerFired lr 2; RecvDone; TimerFired lr 3]) =
  [LogSlowRequest (logDataOf testRequest 0 1 lr) 0;
   LogSlowRequest (logDataOf testRequest 0 2 lr) 1].
Proof.
  refine (slowLog_emits_one_entry_per_timer HttpRequest string
            Second true testRequest 0
            [TimerFired (newLoggedRequest NewRecorder) 1;
             TimerFired (newLoggedRequest NewRecorder) 2; RecvDone;
             TimerFired (newLoggedRequest NewRecorder) 3] _).
  vm_compute. discriminate.
Defined.

(** After cancellation a timer adds nothing. *)
Lemma slowLog_silent_after_return_witness :
  let lr := newLoggedRequest NewRecorder in
  slowLog (any := string) Second true testRequest 0
    ([TimerFired lr 1; RecvDone] ++ [TimerFired lr 2]) =
  slowLog Second true testRequest 0 [TimerFired lr 1; RecvDone].
Proof.
  refine (slowLog_silent_after_return HttpRequest string
            Second true testRequest 0
            [TimerFired (newLoggedRequest NewRecorder) 1; RecvDone]
            [TimerFired (newLoggedRequest NewRecorder) 2] _).
  reflexivity.
Defined.

(** [TestLogsSlow]: a cutoff of 5ms and repetition. *)
Lemma poller_started_and_cancelled_witness :
  let s := ServeHTTP (any := string)
             (LoggerMiddleware (slowHandler 999) (mockLogger 5000000 true))
             NewRecorder testRequest 0 17000000 in
  spawned s =
  Some {| go_cutoff := 5000000; go_multiple := true;
          go_r := testRequest; go_start := 0 |} /\
  doneClosed s = true.
Proof.
  refine (poller_started_and_cancelled HttpRequest string
            (slowHandler 999) (mockLogger 5000000 true) NewRecorder
            testRequest 0 17000000
            {| Cutoff := fun _ => 5000000; MultipleLogs := fun _ => true |}
            _ _).
  - reflexivity.
  - simpl. lia.
Defined.

(** [TestLogsSlow] again, with three timers before the cancellation. *)
Lemma slow_emissions_of_a_request_witness :
  let s := ServeHTTP (any := string)
             (LoggerMiddleware (slowHandler 999) (mockLogger 5000000 true))
             NewRecorder testRequest 0 17000000 in
  let lr8 :=
    snd (Write (zeros 8) (WriteHeader 999 (newLoggedRequest NewRecorder))) in
  slowEmissions s
    [TimerFired lr8 5000000; TimerFired lr8 10000000;
     TimerFired lr8 15000000; RecvDone] =
  [LogSlowRequest (logDataOf testRequest 0 5000000 lr8) 0;
   LogSlowRequest (logDataOf testRequest 0 10000000 lr8) 1;
   LogSlowRequest (logDataOf testRequest 0 15000000 lr8) 2].
Proof.
  refine (slow_emissions_of_a_request HttpRequest string
            (slowHandler 999) (mockLogger 5000000 true) NewRecorder
            testRequest 0 17000000
            {| Cutoff := fun _ => 5000000; MultipleLogs := fun _ => true |}
            _ _ _ _).
  - reflexivity.
  - simpl. lia.
  - vm_compute. discriminate.
Defined.

(** The terminal entry of [mockHandler] carries the request and the start
    time. *)
Lemma emissions_carry_request_and_start_witness :
  let s := ServeHTTP (any := string)
             (LoggerMiddleware (mockHandler 999) nullLogger)
             NewRecorder testRequest 7 5 in
  let e := LogRequest (any := string)
             (logDataOf testRequest 7 5 (response s)) in
  R (entry e) = testRequest /\ Start (entry e) = 7.
Proof.
  refine (emissions_carry_request_and_start HttpRequest string
            (LoggerMiddleware (mockHandler 999) nullLogger)
            NewRecorder testRequest 7 5 [] _ _).
  simpl. left. reflexivity.
Defined.

(** [BenchmarkLogsRequest] with three iterations: [nb] is 3. *)
Lemma serveAll_one_terminal_event_each_witness :
  let rs := [(testRequest, 0, 1); (testRequest, 1, 1); (testRequest, 2, 1)] in
  let out := serveAll (any := string)
               (LoggerMiddleware emptyHandler nullLogger) NewRecorder rs in
  snd out = None /\
  (count isLogRequest (fst (fst out)) + count isLogPanic (fst (fst out)))%nat
  = 3%nat.
Proof.
  split.
  - reflexivity.
  - refine (proj1 (proj2 (serveAll_one_terminal_event_each HttpRequest string
                            (LoggerMiddleware emptyHandler nullLogger)
                            [(testRequest, 0, 1); (testRequest, 1, 1);
                             (testRequest, 2, 1)] NewRecorder)) _).
    reflexivity.
Defined.

(** A snapshot taken after the first write of [slowHandler]. *)
Lemma interceptor_during_the_handler_witness :
  let lr8 :=
    snd (Write (zeros 8) (WriteHeader 999 (newLoggedRequest NewRecorder))) in
  let final :=
    snd (fst (serve (any := string) (slowHandler 999 testRequest)
                (newLoggedRequest NewRecorder))) in
  0 <= bytesWritten lr8 <= bytesWritten final /\
  (wroteHeader lr8 = true -> status lr8 = status final).
Proof.
  refine (interceptor_during_the_handler string
            (slowHandler 999 testRequest) NewRecorder _
            ResponseRecorder_io_Writer_contract _ _).
  - vm_compute. discriminate.
  - simpl. right. right. left. reflexivity.
Defined.

(** Scenario of [TestLogsSlow]: the slow entry taken between the two
    writes shows 8 bytes, the terminal entry 16. *)
Lemma slow_entry_within_terminal_entry_witness :
  let s := ServeHTTP (any := string)
             (LoggerMiddleware (slowHandler 999) (mockLogger 5000000 true))
             NewRecorder testRequest 0 17000000 in
  let lr8 :=
    snd (Write (zeros 8) (WriteHeader 999 (newLoggedRequest NewRecorder))) in
  let e := LogSlowRequest (any := string)
             (logDataOf testRequest 0 5000000 lr8) 0 in
  let t := LogRequest (any := string)
             (logDataOf testRequest 0 17000000 (response s)) in
  (BytesWritten (entry e) = 8 /\ BytesWritten (entry t) = 16) /\
  0 <= BytesWritten (entry e) <= BytesWritten (entry t) /\
  (Status (entry e) = 0 \/ Status (entry e) = Status (entry t)).
Proof.
  split; [split; reflexivity | ].
  refine (slow_entry_within_terminal_entry HttpRequest string
            (LoggerMiddleware (slowHandler 999) (mockLogger 5000000 true))
            NewRecorder testRequest 0 17000000
            [TimerFired
               (snd (Write (zeros 8)
                       (WriteHeader 999 (newLoggedRequest NewRecorder))))
               5000000; RecvDone]
            _ _ ResponseRecorder_io_Writer_contract _ _ _ _).
  - vm_compute. discriminate.
  - intros lr since' [Heq | [Heq | []]]; [ | discriminate Heq].
    injection Heq as <- _. simpl. right. right. left. reflexivity.
  - simpl. left. reflexivity.
  - simpl. left. reflexivity.
Defined.
